(** * disc_golf_simulator.py: the streamlit page of the disc golf simulator

    The page collects six throw parameters and a disc from sidebar widgets,
    hands them to the shotshaper physics model, remaps the axes of the
    returned trajectory and shows four summary numbers in a markdown table.

    The embedding follows [main] line by line.  Numbers are the binary64
    floats the source computes with (numpy float64 and Python float), through
    Rocq's primitive floats.  Every call into streamlit, shotshaper or
    [utilities.visualize] is a node of a program tree; a handler gives the
    collaborators' answers, and an answer is either a value or a raised
    exception.  [main] contains no [try], so the tree has no construct that
    catches.  A handler is a function of the call: within one run a
    collaborator answers the same call the same way.  [exec] runs the same
    trees against collaborators given as a relation, which need not be
    deterministic.

    What the page prints is not modelled as text: the flight table is the
    four numbers its f-string formats. *)

From Stdlib Require Import ZArith Lia List Bool String.
From Stdlib Require Import Floats.
Import ListNotations.

Set Warnings "-inexact-float".
Local Open Scope string_scope.
Local Open Scope float_scope.

(** ** Binary64 scalars *)

(** [v] is a number: every float except NaN (infinities included). *)
Definition numeric (v : float) : bool := negb (is_nan v).

(** Position of a non-NaN float on a lexicographically ordered triple of
    integers: sign class, then exponent, then mantissa.  Both zeros share a
    key, as they compare equal. *)
Definition key (s : spec_float) : Z * Z * Z :=
  match s with
  | S754_nan => (0, 0, 0)
  | S754_zero _ => (0, 0, 0)
  | S754_infinity true => (-2, 0, 0)
  | S754_infinity false => (2, 0, 0)
  | S754_finite true m e => (-1, - e, Z.neg m)
  | S754_finite false m e => (1, e, Z.pos m)
  end%Z.

Definition lt3 (p q : Z * Z * Z) : Prop :=
  let '(a, b, c) := p in
  let '(a', b', c') := q in
  (a < a' \/ (a = a' /\ (b < b' \/ (b = b' /\ c < c'))))%Z.

Definition fkey (v : float) : Z * Z * Z := key (Prim2SF v).

(** A shift record with nothing lost. *)
Definition exact (m : Z) : shr_record :=
  {| shr_m := m; shr_r := false; shr_s := false |}.

(** ** Python values and builtins *)

(** An exception object: its class name and its argument. *)
Record exn : Type := { exn_type : string; exn_arg : string }.

Definition ValueError (msg : string) : exn :=
  {| exn_type := "ValueError"; exn_arg := msg |}.
Definition KeyError (k : string) : exn :=
  {| exn_type := "KeyError"; exn_arg := k |}.

(** The outcome of evaluating an expression: a value or a raised exception. *)
Inductive result (A : Type) : Type :=
| Ok (a : A)
| Raise (e : exn).
Arguments Ok {A} a.
Arguments Raise {A} e.

Definition rbind {A B : Type} (r : result A) (f : A -> result B) : result B :=
  match r with
  | Ok a => f a
  | Raise e => Raise e
  end.

Notation "'let?' x := r 'in' q" := (rbind r (fun x => q))
  (at level 10, x name, r at level 100, q at level 200).

(** Builtin [min] over an iterable of floats: the first item is the running
    best, and a later item replaces it when [item < best]. *)
Definition py_min (xs : list float) : result float :=
  match xs with
  | [] => Raise (ValueError "min() arg is an empty sequence")
  | first :: rest =>
      Ok (fold_left (fun best item => if item <? best then item else best)
                    rest first)
  end.

(** Builtin [max]: a later item replaces the running best when
    [item > best]. *)
Definition py_max (xs : list float) : result float :=
  match xs with
  | [] => Raise (ValueError "max() arg is an empty sequence")
  | first :: rest =>
      Ok (fold_left (fun best item => if best <? item then item else best)
                    rest first)
  end.

Definition two52 : float := 4503599627370496.

(** Round to the nearest integer, ties to even (C's [rint] in the default
    rounding mode, which [numpy.rint] calls). *)
Definition rint (v : float) : float :=
  if abs v <? two52 then
    if v =? 0 then v
    else if v <? 0 then - ((- v + two52) - two52)
    else (v + two52) - two52
  else v.

(** [round(v, 2)] for a numpy float64 scalar [v]: numpy scales by [10**2],
    rounds to an integer and scales back. *)
Definition round2 (v : float) : float := rint (v * 100) / 100.

(** A dict literal, in insertion order. *)
Definition dict : Type := list (string * string).

Definition keys (d : dict) : list string := map fst d.

(** [d[k]] *)
Fixpoint getitem (d : dict) (k : string) : result string :=
  match d with
  | [] => Raise (KeyError k)
  | (k', v) :: rest => if String.eqb k' k then Ok v else getitem rest k
  end.

(** ** Module-level constants (lines 11-17) *)

Definition default_U : float := 24.2.
Definition default_omega : float := 116.8.
Definition default_z0 : float := 1.3.
Definition default_pitch : float := 15.5.
Definition default_nose : float := 0.0.
Definition default_roll : float := 14.7.

(** ** Widgets *)

(** The arguments of one [st.sidebar.slider] call (the help text, which is
    only displayed, is left out). *)
Record slider : Type := {
  label : string;
  min_value : float;
  max_value : float;
  value : float;
  step : float
}.

Definition nose_slider : slider :=
  {| label := "Nose Angle (deg) | Up/Down";
     min_value := -45.0; max_value := 90.0; value := default_nose;
     step := 0.1 |}.
Definition roll_slider : slider :=
  {| label := "Roll Angle (deg) | Anhyzer/Hyzer";
     min_value := -90.0; max_value := 90.0; value := default_roll;
     step := 0.1 |}.
Definition U_slider : slider :=
  {| label := "Throwing Velocity (m/s)";
     min_value := 0.0; max_value := 40.0; value := default_U; step := 0.1 |}.
Definition omega_slider : slider :=
  {| label := "Omega (revolutions/s)";
     min_value := 0.0; max_value := 200.0; value := default_omega;
     step := 0.1 |}.
Definition z0_slider : slider :=
  {| label := "Release Height (m)";
     min_value := 0.0; max_value := 2.0; value := default_z0; step := 0.1 |}.
Definition pitch_slider : slider :=
  {| label := "Pitch Angle (deg) | Release angle";
     min_value := 0.0; max_value := 90.0; value := default_pitch;
     step := 0.1 |}.

(** Lines 45-50. *)
Definition disc_names : dict :=
  [ ("Innova Wraith", "dd2");
    ("Innova Firebird", "cd1");
    ("Innova Roadrunner", "cd5");
    ("Innova Fairway Driver", "fd2") ].

(** The texts the page writes.  Only the flight table carries data. *)
Inductive markdown : Type :=
| VisitorBadge
| DiscOrientationHeading
| ThrowingPropertiesHeading
| DiscOrientationText
| FlightPathText
| FlightTable (left right height dist : float)
| faq.

(** The values [main] holds after the widgets have answered. *)
Record ThrowParameters : Type := {
  U : float;
  omega : float;
  z0 : float;
  pitch : float;
  nose : float;
  roll : float;
  disc_name : string
}.

(** The three rows [x, y, z] of a position array of shape (3, N). *)
Definition rows : Type := (list float * list float * list float)%type.

(** ** Vocabulary of the claims *)

Definition all_numeric (l : list float) : bool := forallb numeric l.

(** [a] is a least element of [l] for the order of floats. *)
Definition minimum_of (a : float) (l : list float) : Prop :=
  In a l /\ forall v, In v l -> (a <=? v) = true.

Definition maximum_of (a : float) (l : list float) : Prop :=
  In a l /\ forall v, In v l -> (v <=? a) = true.

(** All elements compare equal. *)
Definition constant (l : list float) : Prop :=
  forall v w, In v l -> In w l -> (v =? w) = true.

(** A position array of a trajectory: three rows of one length whose entries
    are numbers. *)
Definition TrajectorySample (pos : rows) : Prop :=
  let '(x, y, z) := pos in
  List.length x = List.length y /\ List.length y = List.length z /\
  all_numeric x && all_numeric y && all_numeric z = true.

Definition non_empty (pos : rows) : Prop :=
  let '(x, _, _) := pos in x <> [].

(** The sample as a sequence of points. *)
Definition points (pos : rows) : list (float * float * float) :=
  let '(x, y, z) := pos in combine (combine x y) z.

(** The remap of one point. *)
Definition remap_point (p : float * float * float) : float * float * float :=
  let '(x, y, z) := p in (- y, x, z).

(** The four reductions before they are rounded for the table. *)
Record FlightSummary : Type := {
  drift_left : float;
  drift_right : float;
  max_height : float;
  distance : float
}.

Definition flight_summary (remapped : rows) : result FlightSummary :=
  let '(x_new, y_new, z) := remapped in
  let? a := py_min x_new in
  let? b := py_max x_new in
  let? c := py_max z in
  let? d := py_max y_new in
  Ok {| drift_left := a; drift_right := b; max_height := c; distance := d |}.

Definition table_of (s : FlightSummary) : markdown :=
  FlightTable (round2 (drift_left s)) (round2 (drift_right s))
              (round2 (max_height s)) (round2 (distance s)).

(** The closed range a slider declares. *)
Definition within (s : slider) (v : float) : bool :=
  (min_value s <=? v) && (v <=? max_value s).

Definition between (lo hi v : float) : bool := (lo <=? v) && (v <=? hi).

(** The ranges of the six parameters, as the specification lists them. *)
Definition in_declared_ranges (p : ThrowParameters) : bool :=
  between 0 40 (U p) && between 0 200 (omega p)
  && between 0 2 (z0 p) && between 0 90 (pitch p)
  && between (-45) 90 (nose p) && between (-90) 90 (roll p).

(** The identifiers of the catalog. *)
Definition catalog : list string := map snd disc_names.

(** ** Collaborators *)

(** The object types of the collaborators; the page only passes them on. *)
Class Collaborators : Type := {
  Disc : Type;
  Mesh : Type;
  Figure : Type;
  Velocity : Type;
  Series : Type
}.

Section Page.
Context {C : Collaborators}.

(** What [DiscGolfDisc.shoot] returns, as far as the page reads it. *)
Record Shot : Type := { position : rows; velocity : Velocity }.

(** The seven series of [post_process]:
    arc, alphas, betas, lifts, drags, moms, rolls. *)
Definition PostProcessed : Type :=
  (Series * Series * Series * Series * Series * Series * Series)%type.

(** One call out of [main], with its arguments.  A [with] block is the call
    that opens it; none of them catches an exception.  The second argument
    of [st_plotly_chart] is the second positional argument of
    [st.plotly_chart], [None] where the source passes none (line 92);
    [deepcopy] is [copy.deepcopy] (line 85). *)
Inductive call : Type :=
| st_tabs (names : list string)
| st_sidebar_markdown (m : markdown)
| st_sidebar_selectbox (label : string) (options : list string)
| st_container
| st_sidebar_container
| st_sidebar_slider (s : slider)
| st_spinner (text : string)
| DiscGolfDisc (name : string)
| stl_meshes (name : string)
| deepcopy (obj : Mesh)
| visualize_disc (stl_mesh : Mesh) (nose roll : float)
| st_markdown (m : markdown)
| st_plotly_chart (fig : Figure) (use_container_width : option bool)
| shoot (disc_dict : Disc) (speed omega pitch : float)
        (position : float * float * float) (nose_angle roll_angle : float)
| get_plot (x y z : list float)
| post_process (disc_dict : Disc) (shot : Shot) (omega : float)
| get_subplots (arc alphas lifts drags moms rolls : Series)
               (velocity : Velocity)
| st_expander (label : string).

(** The type of what a call returns.  [main] unpacks three answers (line 39:
    two tabs; line 101: three series of [shot.position]; line 125: seven
    series) and reads [shot.position] and [shot.velocity]; the types give
    the answers these shapes, so an unpacking that does not fit is outside
    the model. *)
Definition answer (c : call) : Type :=
  match c with
  | st_sidebar_selectbox _ _ => string
  | st_sidebar_slider _ => float
  | DiscGolfDisc _ => Disc
  | stl_meshes _ => Mesh
  | deepcopy _ => Mesh
  | visualize_disc _ _ _ => Figure
  | shoot _ _ _ _ _ _ _ => Shot
  | get_plot _ _ _ => Figure
  | post_process _ _ _ => PostProcessed
  | get_subplots _ _ _ _ _ _ _ => Figure
  | _ => unit
  end.

(** Straight-line Python with calls and exceptions. *)
Inductive prog (A : Type) : Type :=
| Ret (a : A)
| Throw (e : exn)
| Call (c : call) (k : answer c -> prog A).
Arguments Ret {A} a.
Arguments Throw {A} e.
Arguments Call {A} c k.

Fixpoint bind {A B : Type} (p : prog A) (f : A -> prog B) : prog B :=
  match p with
  | Ret a => f a
  | Throw e => Throw e
  | Call c k => Call c (fun v => bind (k v) f)
  end.

Definition perform (c : call) : prog (answer c) := Call c Ret.

Definition lift {A : Type} (r : result A) : prog A :=
  match r with
  | Ok a => Ret a
  | Raise e => Throw e
  end.

Notation "x <- p ;; q" := (bind p (fun x => q))
  (at level 61, p at next level, right associativity).
Notation "p ;; q" := (bind p (fun _ => q))
  (at level 61, right associativity).

(** *** Lines 101-102: the axis remap *)

(** [x, y, z = shot.position] then [x_new, y_new = -1 * y, x]; the result is
    [(x_new, y_new, z)].  numpy multiplies every element by [-1.0]. *)
Definition axis_remap (pos : rows) : rows :=
  let '(x, y, z) := pos in
  (map (fun v => -1 * v) y, x, z).

(** *** Lines 107-123: the table *)

(** The four cells of the f-string, evaluated left to right. *)
Definition flight_table (remapped : rows) : result markdown :=
  let '(x_new, y_new, z) := remapped in
  let? drift_left := py_min x_new in
  let? drift_right := py_max x_new in
  let? max_height := py_max z in
  let? distance := py_max y_new in
  Ok (FlightTable (round2 drift_left) (round2 drift_right)
                  (round2 max_height) (round2 distance)).

(** *** Lines 45-79: the widgets *)

Definition collect : prog ThrowParameters :=
  disc_selected <- perform (st_sidebar_selectbox "Disc Selection"
                                                 (keys disc_names)) ;;
  disc_name <- lift (getitem disc_names disc_selected) ;;
  perform st_container ;;
  perform (st_sidebar_markdown DiscOrientationHeading) ;;
  nose <- perform (st_sidebar_slider nose_slider) ;;
  roll <- perform (st_sidebar_slider roll_slider) ;;
  perform st_sidebar_container ;;
  perform (st_sidebar_markdown ThrowingPropertiesHeading) ;;
  U <- perform (st_sidebar_slider U_slider) ;;
  omega <- perform (st_sidebar_slider omega_slider) ;;
  z0 <- perform (st_sidebar_slider z0_slider) ;;
  pitch <- perform (st_sidebar_slider pitch_slider) ;;
  Ret {| U := U; omega := omega; z0 := z0; pitch := pitch;
         nose := nose; roll := roll; disc_name := disc_name |}.

(** *** Lines 81-128: orientation preview, flight, table, charts *)

Definition simulate (p : ThrowParameters) : prog unit :=
  perform (st_spinner "Calculating Disc Orientation...") ;;
  let pos := (0, 0, z0 p) in
  disc_dict <- perform (DiscGolfDisc (disc_name p)) ;;
  stored <- perform (stl_meshes (disc_name p)) ;;
  stl_mesh <- perform (deepcopy stored) ;;
  fig <- perform (visualize_disc stl_mesh (nose p) (roll p)) ;;
  perform (st_markdown DiscOrientationText) ;;
  perform (st_plotly_chart fig None) ;;
  perform (st_spinner "Calculating Flight Path...") ;;
  perform (st_markdown FlightPathText) ;;
  shot <- perform (shoot disc_dict (U p) (omega p) (pitch p) pos
                         (nose p) (roll p)) ;;
  let remapped := axis_remap (position shot) in
  let '(x_new, y_new, z) := remapped in
  fig <- perform (get_plot x_new y_new z) ;;
  perform (st_plotly_chart fig (Some true)) ;;
  table <- lift (flight_table remapped) ;;
  perform (st_markdown table) ;;
  processed <- perform (post_process disc_dict shot (omega p)) ;;
  let '(arc, alphas, betas, lifts, drags, moms, rolls) := processed in
  fig <- perform (get_subplots arc alphas lifts drags moms rolls
                               (velocity shot)) ;;
  perform (st_expander "Optional Charts for science-y people") ;;
  perform (st_plotly_chart fig (Some true)) ;;
  Ret tt.

(** *** Lines 38-131 *)

Definition main : prog unit :=
  perform (st_tabs ["Simulator"; "FAQ"]) ;;
  perform (st_sidebar_markdown VisitorBadge) ;;
  p <- collect ;;
  simulate p ;;
  perform (st_markdown faq) ;;
  Ret tt.

(** ** Running a page *)

(** The collaborators as functions of the call: what each call returns or
    raises. *)
Definition handler : Type := forall c : call, result (answer c).

(** A call together with how it ended. *)
Inductive event : Type :=
| Ev (c : call) (r : result (answer c)).

Definition ev_call (e : event) : call :=
  match e with Ev c _ => c end.

Definition calls (t : list event) : list call := map ev_call t.

Definition raised (e : event) : bool :=
  match e with
  | Ev _ (Raise _) => true
  | Ev _ (Ok _) => false
  end.

Definition exception_of (e : event) : option exn :=
  match e with
  | Ev _ (Raise x) => Some x
  | Ev _ (Ok _) => None
  end.

(** Run a program against the collaborators: the calls made, in order, and
    the outcome.  The first exception ends the run. *)
Fixpoint run (h : handler) {A : Type} (p : prog A) : list event * result A :=
  match p with
  | Ret a => ([], Ok a)
  | Throw e => ([], Raise e)
  | Call c k =>
      match h c with
      | Ok v => let '(t, r) := run h (k v) in (Ev c (Ok v) :: t, r)
      | Raise e => ([Ev c (Raise e)], Raise e)
      end
  end.

(** Collaborators that need not be functions: [R c r] when call [c] may end
    as [r]. *)
Definition responses : Type := forall c : call, result (answer c) -> Prop.

Fixpoint exec (R : responses) {A : Type} (p : prog A)
         (t : list event) (r : result A) : Prop :=
  match p with
  | Ret a => t = [] /\ r = Ok a
  | Throw e => t = [] /\ r = Raise e
  | Call c k =>
      (exists v t', R c (Ok v) /\ t = Ev c (Ok v) :: t' /\ exec R (k v) t' r)
      \/ (exists e, R c (Raise e) /\ t = [Ev c (Raise e)] /\ r = Raise e)
  end.

Definition deterministic (R : responses) : Prop :=
  forall c r1 r2, R c r1 -> R c r2 -> r1 = r2.

Definition graph (h : handler) : responses := fun c r => h c = r.

(** Collaborators that answer as one of two handlers would. *)
Definition either (h1 h2 : handler) : responses :=
  fun c r => h1 c = r \/ h2 c = r.

(** Kinds of calls the claims speak about. *)
Definition is_shoot (c : call) : bool :=
  match c with shoot _ _ _ _ _ _ _ => true | _ => false end.

Definition is_post_process (c : call) : bool :=
  match c with post_process _ _ _ => true | _ => false end.

Definition is_table (c : call) : bool :=
  match c with st_markdown (FlightTable _ _ _ _) => true | _ => false end.

Definition is_slider (c : call) : bool :=
  match c with st_sidebar_slider _ => true | _ => false end.

Definition is_get_plot (c : call) : bool :=
  match c with get_plot _ _ _ => true | _ => false end.

(** The calls into the physics model, shotshaper's [DiscGolfDisc]: building
    the disc, [shoot] and [post_process]. *)
Definition is_physics (c : call) : bool :=
  match c with
  | DiscGolfDisc _ | shoot _ _ _ _ _ _ _ | post_process _ _ _ => true
  | _ => false
  end.

(** The physics model is deterministic; the other collaborators need not
    be. *)
Definition physics_deterministic (R : responses) : Prop :=
  forall c r1 r2, is_physics c = true -> R c r1 -> R c r2 -> r1 = r2.

(** The calls that only the flight part of the page makes. *)
Definition core (c : call) : bool :=
  is_shoot c || is_post_process c || is_table c || is_get_plot c.

(** The six sliders of the page, in the order of their creation. *)
Definition declared_sliders : list call :=
  map st_sidebar_slider
      [nose_slider; roll_slider; U_slider; omega_slider; z0_slider;
       pitch_slider].

(** The sample an event carries, when the event is a [shoot] that returned. *)
Definition sample_of (ev : event) : option Shot :=
  match ev with
  | Ev c r =>
      match c as c0 return result (answer c0) -> option Shot with
      | shoot _ _ _ _ _ _ _ =>
          fun r0 => match r0 with Ok s => Some s | Raise _ => None end
      | _ => fun _ => None
      end r
  end.

(** The samples of a run, and the summaries they reduce to. *)
Fixpoint samples (t : list event) : list Shot :=
  match t with
  | [] => []
  | ev :: t' =>
      match sample_of ev with
      | Some s => s :: samples t'
      | None => samples t'
      end
  end.

Definition summaries (t : list event) : list (result FlightSummary) :=
  map (fun s => flight_summary (axis_remap (position s))) (samples t).

(** The input layer keeps a slider's answer within the slider's range. *)
Definition sliders_in_range (h : handler) : Prop :=
  forall s v, In (st_sidebar_slider s) declared_sliders ->
              h (st_sidebar_slider s) = Ok v -> within s v = true.

(** The first render: every slider answers with its initial value. *)
Definition untouched (h : handler) : Prop :=
  forall s, h (st_sidebar_slider s) = Ok (value s).

(** A call that names a disc names one of the catalog. *)
Definition accepted (c : call) : Prop :=
  match c with
  | DiscGolfDisc name | stl_meshes name => In name catalog
  | _ => True
  end.

(** Modelled from the spec: the code of shotshaper's [DiscGolfDisc], of the
    [stl_meshes] table and the plotting helpers in [utilities/visualize.py],
    and of streamlit is missing; only their calls in [main] are known.  The
    specification asks of them that a throw with an identifier of the fixed
    catalog never raises and that it yields a non-empty trajectory sample;
    this is that contract, stated for a handler. *)
Definition serves_catalog (h : handler) : Prop :=
  (forall c, accepted c -> exists v, h c = Ok v)
  /\ (forall c shot, sample_of (Ev c (h c)) = Some shot ->
                     TrajectorySample (position shot)
                     /\ non_empty (position shot)).

(** [simulate p] is the flight part of this run of [main]. *)
Definition flight_of (h : handler) (p : ThrowParameters) : Prop :=
  snd (run h collect) = Ok p
  /\ (forall ev, In ev (fst (run h (simulate p))) ->
                 In ev (fst (run h main)))
  /\ (forall ev, In ev (fst (run h main)) -> core (ev_call ev) = true ->
                 In ev (fst (run h (simulate p))))
  /\ (forall e, snd (run h (simulate p)) = Raise e ->
                snd (run h main) = Raise e).

(** ** Further vocabulary: the parts of the page around the flight *)

(** The calls of the page frame and of the sidebar widgets. *)
Definition is_widget (c : call) : bool :=
  match c with
  | st_tabs _ | st_sidebar_markdown _ | st_sidebar_selectbox _ _
  | st_container | st_sidebar_container | st_sidebar_slider _ => true
  | _ => false
  end.

Definition is_faq (c : call) : bool :=
  match c with st_markdown faq => true | _ => false end.

Definition is_visualize (c : call) : bool :=
  match c with visualize_disc _ _ _ => true | _ => false end.

Definition is_chart (c : call) : bool :=
  match c with st_plotly_chart _ _ => true | _ => false end.

Definition is_subplots (c : call) : bool :=
  match c with get_subplots _ _ _ _ _ _ _ => true | _ => false end.

(** What lands in the two tabs besides the fixed texts: charts, the flight
    table and the FAQ. *)
Definition is_shown (c : call) : bool :=
  is_chart c || is_table c || is_faq c.

(** The steps that build the orientation preview (lines 83-86). *)
Definition is_preview_step (c : call) : bool :=
  match c with
  | DiscGolfDisc _ | stl_meshes _ | deepcopy _ | visualize_disc _ _ _ => true
  | _ => false
  end.

(** The same collaborators, except that [post_process] hands back [f betas]
    in place of its third series. *)
Definition with_betas (f : Series -> Series) (h : handler) : handler :=
  fun c =>
    match c as c0 return result (answer c0) -> result (answer c0) with
    | post_process _ _ _ =>
        fun r =>
          match r with
          | Ok (arc, alphas, betas, lifts, drags, moms, rolls) =>
              Ok (arc, alphas, f betas, lifts, drags, moms, rolls)
          | Raise e => Raise e
          end
    | _ => fun r => r
    end (h c).

End Page.

(** ** A laboratory: concrete collaborators to run the page against *)

Definition lab : Collaborators :=
  {| Disc := string; Mesh := string; Figure := nat;
     Velocity := unit; Series := unit |}.

(** The laboratory's collaborators: the select box answers with [selected],
    or with its first option when nothing was selected; a slider answers
    with its initial value; a disc is its identifier; [shots] and
    [processed] script the physics model. *)
Definition lab_handler (selected : option string)
           (shots : string -> result (@Shot lab))
           (processed : result (@PostProcessed lab)) : @handler lab :=
  fun c =>
    match c as c0 return result (@answer lab c0) with
    | st_sidebar_selectbox _ options =>
        match selected with
        | Some s => Ok s
        | None => Ok (hd "" options)
        end
    | st_sidebar_slider s => Ok (value s)
    | DiscGolfDisc name => Ok name
    | stl_meshes name => Ok name
    | deepcopy obj => Ok obj
    | visualize_disc _ _ _ => Ok 0%nat
    | shoot d _ _ _ _ _ _ => shots d
    | get_plot _ _ _ => Ok 1%nat
    | post_process _ _ _ => processed
    | get_subplots _ _ _ _ _ _ _ => Ok 2%nat
    | _ => Ok tt
    end.

Definition lab_shot : @Shot lab :=
  @Build_Shot lab ([0; 10; 20], [0; 0.5; -1.234], [1.3; 2.5; 0]) tt.

Definition flat_shot : @Shot lab :=
  @Build_Shot lab ([0; 5], [0; 0], [1; 0]) tt.

Definition empty_shot : @Shot lab :=
  @Build_Shot lab ([], [], []) tt.

Definition lab_processed : @PostProcessed lab := (tt, tt, tt, tt, tt, tt, tt).

Definition lab_params : ThrowParameters :=
  {| U := 24.2; omega := 116.8; z0 := 1.3; pitch := 15.5; nose := 0.0;
     roll := 14.7; disc_name := "dd2" |}.

(** The [shoot] call of the first render in the laboratory. *)
Definition lab_shoot_call : @call lab :=
  @shoot lab "dd2" 24.2 116.8 15.5 (0, 0, 1.3) 0.0 14.7.

Definition unstable : exn :=
  {| exn_type := "RuntimeError"; exn_arg := "integration failed" |}.

(** Everything succeeds and every disc flies [lab_shot]. *)
Definition lab_ok : @handler lab :=
  lab_handler None (fun _ => Ok lab_shot) (Ok lab_processed).

(** The Firebird (cd1) flies differently from the other discs. *)
Definition two_flights (d : string) : result (@Shot lab) :=
  if String.eqb d "cd1" then Ok flat_shot else Ok lab_shot.

(** The user picked [display] in the select box. *)
Definition lab_selecting (display : string) : @handler lab :=
  lab_handler (Some display) two_flights (Ok lab_processed).

Definition lab_shoot_fails : @handler lab :=
  lab_handler None (fun _ => Raise unstable) (Ok lab_processed).

Definition lab_post_process_fails : @handler lab :=
  lab_handler None (fun _ => Ok lab_shot) (Raise unstable).

Definition lab_empty : @handler lab :=
  lab_handler None (fun _ => Ok empty_shot) (Ok lab_processed).

(** The user's select box answers a name the table does not hold. *)
Definition lab_unknown_disc : @handler lab :=
  lab_handler (Some "Innova Destroyer") (fun _ => Ok lab_shot)
              (Ok lab_processed).

(** The plot of the trajectory fails; everything else succeeds. *)
Definition lab_plot_fails : @handler lab :=
  fun c =>
    match c as c0 return result (@answer lab c0) -> result (@answer lab c0)
    with
    | get_plot _ _ _ => fun _ => Raise unstable
    | _ => fun r => r
    end (lab_ok c).

(** The preview cannot be drawn; the physics model answers as before. *)
Definition lab_no_preview : @handler lab :=
  fun c =>
    match c as c0 return result (@answer lab c0) -> result (@answer lab c0)
    with
    | visualize_disc _ _ _ => fun _ => Raise unstable
    | _ => fun r => r
    end (lab_ok c).

(** The disc cannot be built. *)
Definition lab_no_disc : @handler lab :=
  fun c =>
    match c as c0 return result (@answer lab c0) -> result (@answer lab c0)
    with
    | DiscGolfDisc _ => fun _ => Raise unstable
    | _ => fun r => r
    end (lab_ok c).

(** A flight that starts on the line y = 0 and only ever goes to negative
    y. *)
Definition one_sided_shot : @Shot lab :=
  @Build_Shot lab ([0; 10; 20], [0; -0.5; -1.25], [1.3; 2.5; 0]) tt.

(** * Facts *)

(** ** Order of binary64 numbers *)

Ltac cmp_cases :=
  repeat match goal with
  | |- context [Z.compare ?a ?b] => destruct (Z.compare_spec a b)
  | |- context [Pos.compare_cont Eq ?a ?b] =>
      change (Pos.compare_cont Eq a b) with (Pos.compare a b);
      destruct (Pos.compare_spec a b)
  end.

Ltac by_sign_cases a b :=
  destruct a as [[]|[]| |[] ? ?], b as [[]|[]| |[] ? ?]; try congruence;
  cbn; cmp_cases; cbn.

Lemma SFltb_key (a b : spec_float) :
  a <> S754_nan -> b <> S754_nan ->
  SFltb a b = true <-> lt3 (key a) (key b).
Proof.
  unfold SFltb; intros Ha Hb; by_sign_cases a b;
    split; intros Hk; try discriminate; try lia; try reflexivity.
Qed.

Lemma SFleb_key (a b : spec_float) :
  a <> S754_nan -> b <> S754_nan ->
  SFleb a b = true <-> ~ lt3 (key b) (key a).
Proof.
  unfold SFleb; intros Ha Hb; by_sign_cases a b;
    split; intros Hk; try discriminate; try lia; try reflexivity.
Qed.

Lemma SFeqb_key (a b : spec_float) :
  a <> S754_nan -> b <> S754_nan ->
  SFeqb a b = true <-> key a = key b.
Proof.
  unfold SFeqb; intros Ha Hb; by_sign_cases a b;
    split; intros Hk; try discriminate; try reflexivity;
    try (subst; reflexivity); try (injection Hk; intros; subst; lia).
Qed.

Lemma SFeqb_refl (a : spec_float) : a <> S754_nan -> SFeqb a a = true.
Proof.
  intros Ha. apply SFeqb_key; auto.
Qed.

Lemma numeric_spec (v : float) :
  numeric v = true <-> Prim2SF v <> S754_nan.
Proof.
  unfold numeric, is_nan. rewrite negb_involutive, eqb_spec. split.
  - intros H E. rewrite E in H. discriminate.
  - apply SFeqb_refl.
Qed.

Lemma ltb_key (a b : float) :
  numeric a = true -> numeric b = true ->
  (a <? b) = true <-> lt3 (fkey a) (fkey b).
Proof.
  rewrite !numeric_spec, ltb_spec. apply SFltb_key.
Qed.

Lemma leb_key (a b : float) :
  numeric a = true -> numeric b = true ->
  (a <=? b) = true <-> ~ lt3 (fkey b) (fkey a).
Proof.
  rewrite !numeric_spec, leb_spec. apply SFleb_key.
Qed.

Lemma eqb_key (a b : float) :
  numeric a = true -> numeric b = true ->
  (a =? b) = true <-> fkey a = fkey b.
Proof.
  rewrite !numeric_spec, eqb_spec. apply SFeqb_key.
Qed.


Lemma le3_trans (p q r : Z * Z * Z) : ~ lt3 q p -> ~ lt3 r q -> ~ lt3 r p.
Proof.
  destruct p as [[? ?] ?], q as [[? ?] ?], r as [[? ?] ?]; cbn; lia.
Qed.

Lemma lt3_le3 (p q : Z * Z * Z) : lt3 p q -> ~ lt3 q p.
Proof.
  destruct p as [[? ?] ?], q as [[? ?] ?]; cbn; lia.
Qed.

Lemma le3_antisym (p q : Z * Z * Z) : ~ lt3 q p -> ~ lt3 p q -> p = q.
Proof.
  destruct p as [[a b] c], q as [[a' b'] c']; cbn; intros H1 H2.
  assert (a = a') by lia. assert (b = b') by lia. assert (c = c') by lia.
  congruence.
Qed.


(** ** Multiplying by [-1.0] is negation *)

Lemma digits_shift52 (m : positive) :
  Z.pos (digits2_pos (4503599627370496 * m))
  = (Z.pos (digits2_pos m) + 52)%Z.
Proof.
  cbn [Pos.mul digits2_pos]. lia.
Qed.

Lemma shr_fexp_canonical (m : positive) (e : Z) :
  fexp prec emax (Z.pos (digits2_pos m) + e) = e ->
  shr_fexp prec emax (Z.pos m) e loc_Exact = (exact (Z.pos m), e).
Proof.
  intros Hc. unfold shr_fexp. cbn [Zdigits2].
  rewrite Hc, Z.sub_diag. reflexivity.
Qed.

Lemma shr_fexp_shift52 (m : positive) (e : Z) :
  fexp prec emax (Z.pos (digits2_pos m) + e) = e ->
  shr_fexp prec emax (Z.pos (4503599627370496 * m)) (-52 + e) loc_Exact
  = (exact (Z.pos m), e).
Proof.
  intros Hc. unfold shr_fexp. cbn [Zdigits2]. rewrite digits_shift52.
  replace (Z.pos (digits2_pos m) + 52 + (-52 + e))%Z
    with (Z.pos (digits2_pos m) + e)%Z by lia.
  rewrite Hc.
  replace (e - (-52 + e))%Z with 52%Z by lia.
  cbn [shr shr_record_of_loc Pos.mul iter_pos shr_1 orb].
  unfold exact. f_equal. lia.
Qed.

Lemma SFmul_minus_one (s : spec_float) :
  valid_binary s = true ->
  SF64mul (S754_finite true 4503599627370496 (-52)) s = SFopp s.
Proof.
  destruct s as [sy|sy| |sy my ey]; try reflexivity.
  cbn [SpecFloat.valid_binary]. unfold bounded, canonical_mantissa.
  intros Hv. apply andb_prop in Hv. destruct Hv as [Hc Hb].
  apply Z.eqb_eq in Hc.
  unfold SF64mul, SFmul, binary_round_aux.
  change (xorb true sy) with (negb sy).
  rewrite (shr_fexp_shift52 my ey Hc).
  cbn [exact shr_m loc_of_shr_record shr_r shr_s round_nearest_even].
  rewrite (shr_fexp_canonical my ey Hc).
  cbn [exact shr_m]. rewrite Hb. reflexivity.
Qed.

Lemma mul_minus_one (v : float) : -1 * v = - v.
Proof.
  apply Prim2SF_inj. rewrite mul_spec, opp_spec.
  apply (SFmul_minus_one (Prim2SF v)). apply Prim2SF_valid.
Qed.


Lemma numeric_opp (v : float) : numeric (- v) = numeric v.
Proof.
  destruct (numeric v) eqn:E.
  - apply numeric_spec. apply numeric_spec in E. rewrite opp_spec.
    destruct (Prim2SF v); cbn; congruence.
  - destruct (numeric (- v)) eqn:E'; [|reflexivity].
    apply numeric_spec in E'. rewrite opp_spec in E'.
    assert (Prim2SF v <> S754_nan) as Hv
      by (destruct (Prim2SF v); cbn in *; congruence).
    apply numeric_spec in Hv. congruence.
Qed.

(** ** The scans behind [min] and [max] *)

Section Scan.
Variable better : float -> float -> bool.
Variable before : Z * Z * Z -> Z * Z * Z -> Prop.
Hypothesis better_spec : forall a b,
  numeric a = true -> numeric b = true ->
  (better a b = true <-> before (fkey a) (fkey b)).
Hypothesis not_before_trans : forall p q r,
  ~ before q p -> ~ before r q -> ~ before r p.
Hypothesis before_asym : forall p q, before p q -> ~ before q p.

Lemma scan_spec (rest : list float) : forall first,
  numeric first = true -> all_numeric rest = true ->
  let best := fold_left (fun best item => if better item best then item
                                          else best) rest first in
  numeric best = true /\ In best (first :: rest) /\
  forall v, In v (first :: rest) -> ~ before (fkey v) (fkey best).
Proof.
  induction rest as [|item rest IH]; intros first Hf Hr.
  - cbn. repeat split; auto. intros v [<-|[]] Hb.
    exact (before_asym _ _ Hb Hb).
  - cbn in Hr. apply andb_prop in Hr. destruct Hr as [Hi Hr].
    cbn [fold_left]. destruct (better item first) eqn:E.
    + destruct (IH item Hi Hr) as (Hn & Hin & Hle).
      repeat split; auto.
      * destruct Hin as [<-|Hin]; [right; left; reflexivity|].
        right; right; exact Hin.
      * intros v [<-|Hv]; [|apply Hle; exact Hv].
        apply (better_spec item first Hi Hf) in E.
        apply (not_before_trans _ (fkey item) _).
        -- apply Hle. left. reflexivity.
        -- apply before_asym. exact E.
    + destruct (IH first Hf Hr) as (Hn & Hin & Hle).
      repeat split; auto.
      * destruct Hin as [<-|Hin]; [left; reflexivity|].
        right; right; exact Hin.
      * intros v [<-|[<-|Hv]].
        -- apply Hle. left. reflexivity.
        -- apply (not_before_trans _ (fkey first) _).
           ++ apply Hle. left. reflexivity.
           ++ intros Hb. apply (better_spec item first Hi Hf) in Hb. congruence.
        -- apply Hle. right. exact Hv.
Qed.

End Scan.

Lemma all_numeric_In (l : list float) (v : float) :
  all_numeric l = true -> In v l -> numeric v = true.
Proof.
  unfold all_numeric. rewrite forallb_forall. auto.
Qed.

Lemma py_min_minimum (l : list float) :
  l <> [] -> all_numeric l = true ->
  exists a, py_min l = Ok a /\ minimum_of a l.
Proof.
  destruct l as [|first rest]; [congruence|]. intros _ Hl.
  pose proof Hl as Hl'. cbn in Hl'. apply andb_prop in Hl'.
  destruct Hl' as [Hf Hr].
  destruct (scan_spec (fun item best => item <? best) lt3 ltb_key le3_trans
                      lt3_le3 rest first Hf Hr) as (Hn & Hin & Hle).
  eexists. split; [reflexivity|]. split; [exact Hin|].
  intros v Hv. apply leb_key; auto.
  apply (all_numeric_In _ _ Hl Hv).
Qed.

Lemma py_max_maximum (l : list float) :
  l <> [] -> all_numeric l = true ->
  exists a, py_max l = Ok a /\ maximum_of a l.
Proof.
  destruct l as [|first rest]; [congruence|]. intros _ Hl.
  pose proof Hl as Hl'. cbn in Hl'. apply andb_prop in Hl'.
  destruct Hl' as [Hf Hr].
  destruct (scan_spec (fun item best => best <? item)
                      (fun p q => lt3 q p)
                      (fun a b Ha Hb => ltb_key b a Hb Ha)
                      (fun p q r H1 H2 => le3_trans r q p H2 H1)
                      (fun p q => lt3_le3 q p)
                      rest first Hf Hr) as (Hn & Hin & Hle).
  eexists. split; [reflexivity|]. split; [exact Hin|].
  intros v Hv. apply leb_key; auto.
  apply (all_numeric_In _ _ Hl Hv).
Qed.


(** A least and a greatest element of a list of numbers are in order, and
    they compare equal exactly when the list is constant. *)
Lemma minimum_le_maximum (l : list float) (a b : float) :
  all_numeric l = true -> minimum_of a l -> maximum_of b l ->
  (a <=? b) = true /\ ((a =? b) = true <-> constant l).
Proof.
  intros Hl [Ha Hmin] [Hb Hmax]. split; [apply Hmin; exact Hb|].
  pose proof (all_numeric_In _ _ Hl Ha) as Na.
  pose proof (all_numeric_In _ _ Hl Hb) as Nb.
  split.
  - intros E v w Hv Hw.
    pose proof (all_numeric_In _ _ Hl Hv) as Nv.
    pose proof (all_numeric_In _ _ Hl Hw) as Nw.
    apply eqb_key in E; auto. apply eqb_key; auto.
    assert (forall u, In u l -> fkey u = fkey a) as Hall.
    { intros u Hu. pose proof (all_numeric_In _ _ Hl Hu) as Nu.
      pose proof (Hmin u Hu) as H1. pose proof (Hmax u Hu) as H2.
      apply leb_key in H1; auto. apply leb_key in H2; auto.
      rewrite <- E in H2. apply le3_antisym; auto. }
    rewrite (Hall v Hv), (Hall w Hw). reflexivity.
  - intros Hc. apply Hc; auto.
Qed.

(** ** The summary of a sample *)

Lemma remap_row (y : list float) :
  map (fun v => -1 * v) y = map PrimFloat.opp y.
Proof.
  apply map_ext. exact mul_minus_one.
Qed.

Lemma all_numeric_opp (y : list float) :
  all_numeric (map PrimFloat.opp y) = all_numeric y.
Proof.
  induction y as [|v y IH]; cbn; [reflexivity|].
  rewrite numeric_opp. f_equal. exact IH.
Qed.

(** On a non-empty sample of numbers the four scans return, the table
    shows each result rounded to two decimals, and the results are the least
    and greatest elements the claims name. *)
Lemma summary_of_sample (x y z : list float) :
  TrajectorySample (x, y, z) -> non_empty (x, y, z) ->
  exists s,
    flight_summary (axis_remap (x, y, z)) = Ok s
    /\ flight_table (axis_remap (x, y, z)) = Ok (table_of s)
    /\ (py_min (map PrimFloat.opp y) = Ok (drift_left s)
        /\ minimum_of (drift_left s) (map PrimFloat.opp y))
    /\ (py_max (map PrimFloat.opp y) = Ok (drift_right s)
        /\ maximum_of (drift_right s) (map PrimFloat.opp y))
    /\ (py_max z = Ok (max_height s) /\ maximum_of (max_height s) z)
    /\ (py_max x = Ok (distance s) /\ maximum_of (distance s) x).
Proof.
  cbn. intros (Hxy & Hyz & Hnum) Hx.
  apply andb_prop in Hnum. destruct Hnum as [Hnum Nz].
  apply andb_prop in Hnum. destruct Hnum as [Nx Ny].
  assert (y <> []) as Hy by (destruct x, y; cbn in *; congruence).
  assert (z <> []) as Hz by (destruct y, z; cbn in *; congruence).
  assert (map PrimFloat.opp y <> []) as Hy' by (destruct y; cbn; congruence).
  rewrite <- all_numeric_opp in Ny.
  destruct (py_min_minimum _ Hy' Ny) as (a & Ha & Hmin).
  destruct (py_max_maximum _ Hy' Ny) as (b & Hb & Hmax).
  destruct (py_max_maximum _ Hz Nz) as (c & Hc & Hmaxz).
  destruct (py_max_maximum _ Hx Nx) as (d & Hd & Hmaxx).
  exists {| drift_left := a; drift_right := b; max_height := c;
            distance := d |}.
  rewrite remap_row, Ha, Hb, Hc, Hd. cbn. auto 10.
Qed.

(** Without a point there is no table: [min] of the empty row raises. *)
Lemma flight_table_empty :
  flight_table (axis_remap ([], [], []))
  = Raise (ValueError "min() arg is an empty sequence").
Proof. reflexivity. Qed.

Lemma points_remap (pos : rows) :
  points (axis_remap pos) = map remap_point (points pos).
Proof.
  destruct pos as [[x y] z]. cbn [points axis_remap].
  revert y z. induction x as [|a x IH]; intros y z.
  - destruct y as [|b y]; reflexivity.
  - destruct y as [|b y]; [reflexivity|].
    destruct z as [|c z]; [reflexivity|].
    cbn [map combine remap_point]. rewrite mul_minus_one, IH. reflexivity.
Qed.

(** ** Running programs *)

Section PageFacts.
Context {C : Collaborators}.

Lemma run_bind (h : handler) {A B : Type} (p : prog A) (f : A -> prog B) :
  run h (bind p f)
  = match run h p with
    | (t, Ok a) => let '(t', r) := run h (f a) in ((t ++ t')%list, r)
    | (t, Raise e) => (t, Raise e)
    end.
Proof.
  induction p as [a|e|c k IH]; cbn.
  - destruct (run h (f a)); reflexivity.
  - reflexivity.
  - destruct (h c) as [v|e]; [|reflexivity].
    rewrite IH. destruct (run h (k v)) as [t [a|e]]; [|reflexivity].
    destruct (run h (f a)); reflexivity.
Qed.

(** Every recorded event is what the handler answered. *)
Lemma run_answers (h : handler) {A : Type} (p : prog A) :
  forall c r, In (Ev c r) (fst (run h p)) -> h c = r.
Proof.
  assert (Forall (fun ev => match ev with Ev c r => h c = r end)
                 (fst (run h p))) as Hall.
  { induction p as [a|e|c k IH]; cbn; try constructor.
    destruct (h c) as [v|e] eqn:E.
    - specialize (IH v). destruct (run h (k v)) as [t r]. cbn in *.
      constructor; assumption.
    - cbn. constructor; [assumption|constructor]. }
  intros c r Hin. rewrite Forall_forall in Hall. exact (Hall _ Hin).
Qed.

Lemma exception_raised (ev : event) (e : exn) :
  exception_of ev = Some e -> raised ev = true.
Proof.
  destruct ev as [c [v|x]]; cbn; congruence.
Qed.

(** An exception ends the run: a raising call is the last event and its
    exception is the outcome. *)
Lemma run_raise_last (h : handler) {A : Type} (p : prog A) :
  forall ev e, In ev (fst (run h p)) -> exception_of ev = Some e ->
  snd (run h p) = Raise e
  /\ exists t, fst (run h p) = (t ++ [ev])%list
               /\ Forall (fun ev' => raised ev' = false) t.
Proof.
  induction p as [a|x|c k IH]; cbn; intros ev e Hin He; try tauto.
  destruct (h c) as [v|x] eqn:E.
  - specialize (IH v ev e). destruct (run h (k v)) as [t r]. cbn in *.
    destruct Hin as [<-|Hin]; [discriminate|].
    destruct (IH Hin He) as (-> & t' & -> & Hok).
    split; [reflexivity|]. exists (Ev c (Ok v) :: t'). split; auto.
  - cbn in *. destruct Hin as [<-|[]]. cbn in He. injection He as ->.
    split; [reflexivity|]. exists []. split; auto.
Qed.

(** The run against a handler is an execution against its graph. *)
Lemma exec_run (h : handler) {A : Type} (p : prog A) :
  exec (graph h) p (fst (run h p)) (snd (run h p)).
Proof.
  induction p as [a|e|c k IH]; cbn; auto.
  destruct (h c) as [v|e] eqn:E.
  - left. exists v, (fst (run h (k v))). specialize (IH v).
    destruct (run h (k v)) as [t r]. cbn in *. unfold graph at 1. auto.
  - right. exists e. unfold graph. auto.
Qed.

Lemma graph_deterministic (h : handler) : deterministic (graph h).
Proof.
  unfold deterministic, graph. intros c r1 r2 H1 H2. congruence.
Qed.

(** With deterministic collaborators a program has one execution. *)
Lemma exec_deterministic (R : responses) {A : Type} (p : prog A) :
  deterministic R ->
  forall t1 r1 t2 r2, exec R p t1 r1 -> exec R p t2 r2 ->
  t1 = t2 /\ r1 = r2.
Proof.
  intros HR. induction p as [a|e|c k IH]; cbn; intros t1 r1 t2 r2 H1 H2.
  - destruct H1 as [-> ->], H2 as [-> ->]. auto.
  - destruct H1 as [-> ->], H2 as [-> ->]. auto.
  - destruct H1 as [(v1 & t1' & Hv1 & -> & H1)|(e1 & He1 & -> & ->)],
             H2 as [(v2 & t2' & Hv2 & -> & H2)|(e2 & He2 & -> & ->)].
    + pose proof (HR _ _ _ Hv1 Hv2) as Heq. injection Heq as ->.
      destruct (IH v2 _ _ _ _ H1 H2) as [-> ->]. auto.
    + pose proof (HR _ _ _ Hv1 He2). discriminate.
    + pose proof (HR _ _ _ He1 Hv2). discriminate.
    + pose proof (HR _ _ _ He1 He2) as Heq. injection Heq as ->. auto.
Qed.

Lemma exec_mono (R R' : responses) {A : Type} (p : prog A) :
  (forall c r, R c r -> R' c r) ->
  forall t r, exec R p t r -> exec R' p t r.
Proof.
  intros Hsub. induction p as [a|e|c k IH]; cbn; intros t r H; auto.
  destruct H as [(v & t' & Hv & -> & H)|(e & He & -> & ->)].
  - left. exists v, t'. auto.
  - right. exists e. auto.
Qed.

Lemma in_run_bind (h : handler) {A B : Type} (p : prog A) (f : A -> prog B)
      (ev : event) :
  In ev (fst (run h (bind p f))) ->
  In ev (fst (run h p))
  \/ exists a, snd (run h p) = Ok a /\ In ev (fst (run h (f a))).
Proof.
  rewrite run_bind. destruct (run h p) as [t [a|e]]; cbn; auto.
  destruct (run h (f a)) as [t' r] eqn:E. cbn. intros Hin.
  apply in_app_or in Hin. destruct Hin as [Hin|Hin]; auto.
  right. exists a. rewrite E. auto.
Qed.

Lemma snd_run_bind (h : handler) {A B : Type} (p : prog A) (f : A -> prog B) :
  snd (run h (bind p f))
  = match snd (run h p) with
    | Ok a => snd (run h (f a))
    | Raise e => Raise e
    end.
Proof.
  rewrite run_bind. destruct (run h p) as [t [a|e]]; cbn; auto.
  destruct (run h (f a)); reflexivity.
Qed.

(** *** Symbolic execution of a page against an arbitrary handler *)

Ltac step h :=
  match goal with
  | |- context [match h ?c with Ok _ => _ | Raise _ => _ end] =>
      let E := fresh "E" in destruct (h c) eqn:E
  | |- context [lift ?r] => let E := fresh "E" in destruct r eqn:E
  | |- context [axis_remap ?q] => destruct q as [[? ?] ?] eqn:?
  | |- context [let '(_, _) := ?q in _] => is_var q; destruct q
  end;
  cbn [run bind perform lift fst snd calls map ev_call axis_remap].

Ltac sym_exec h :=
  cbn [run bind perform lift fst snd calls map ev_call]; repeat (step h).

Ltac same_position :=
  repeat match goal with
  | H : position ?s = _, H' : position ?s = _ |- _ =>
      rewrite H in H'; injection H' as <- <- <-
  | H : position ?s = _ |- context [position ?s] => rewrite H
  | H : position ?s = _, H' : context [position ?s] |- _ =>
      progress (rewrite H in H')
  end;
  cbn [axis_remap] in *.

Ltac same_answers :=
  repeat match goal with
  | H : ?l = Ok _, H' : ?l = Raise _ |- _ => rewrite H in H'; discriminate
  | H : ?l = Ok ?a, H' : ?l = Ok ?b |- _ =>
      rewrite H in H'; injection H' as <-
  | H : ?l = Raise ?a, H' : ?l = Raise ?b |- _ =>
      rewrite H in H'; injection H' as <-
  end.

Ltac in_cases H :=
  cbn [In] in H;
  repeat (destruct H as [<-|H]; [try discriminate|]); try contradiction.

(** *** [collect] *)

(** What [collect] returns is what the widgets answered. *)
Lemma collect_returns (h : handler) (p : ThrowParameters) :
  snd (run h collect) = Ok p ->
  (exists disc_selected,
      h (st_sidebar_selectbox "Disc Selection" (keys disc_names))
      = Ok disc_selected
      /\ getitem disc_names disc_selected = Ok (disc_name p))
  /\ h (st_sidebar_slider nose_slider) = Ok (nose p)
  /\ h (st_sidebar_slider roll_slider) = Ok (roll p)
  /\ h (st_sidebar_slider U_slider) = Ok (U p)
  /\ h (st_sidebar_slider omega_slider) = Ok (omega p)
  /\ h (st_sidebar_slider z0_slider) = Ok (z0 p)
  /\ h (st_sidebar_slider pitch_slider) = Ok (pitch p).
Proof.
  unfold collect. sym_exec h.
  all: intros Hp; try discriminate.
  injection Hp as <-. cbn. repeat split; eauto.
Qed.

(** [collect] talks to the widgets only, and to no other slider than the
    six declared ones. *)
Lemma collect_calls (h : handler) (c : call) :
  In c (calls (fst (run h collect))) ->
  core c = false /\ (is_slider c = true -> In c declared_sliders).
Proof.
  unfold collect. sym_exec h.
  all: intros Hin; in_cases Hin.
  all: cbn; split; try discriminate; auto 10.
Qed.

(** *** [simulate] *)

(** The only [shoot] call of [simulate]. *)
Lemma simulate_shoot (h : handler) (p : ThrowParameters) (c : call) :
  In c (calls (fst (run h (simulate p)))) -> is_shoot c = true ->
  exists disc_dict,
    h (DiscGolfDisc (disc_name p)) = Ok disc_dict
    /\ c = shoot disc_dict (U p) (omega p) (pitch p) (0, 0, z0 p)
                (nose p) (roll p).
Proof.
  unfold simulate. sym_exec h.
  all: intros Hin Hs; in_cases Hin.
  all: eexists; split; reflexivity.
Qed.

(** The only [post_process] call of [simulate]. *)
Lemma simulate_post_process (h : handler) (p : ThrowParameters) (c : call) :
  In c (calls (fst (run h (simulate p)))) -> is_post_process c = true ->
  exists disc_dict shot,
    h (DiscGolfDisc (disc_name p)) = Ok disc_dict
    /\ h (shoot disc_dict (U p) (omega p) (pitch p) (0, 0, z0 p)
                (nose p) (roll p)) = Ok shot
    /\ c = post_process disc_dict shot (omega p).
Proof.
  unfold simulate. sym_exec h.
  all: intros Hin Hs; in_cases Hin.
  all: do 2 eexists; repeat split; try eassumption; reflexivity.
Qed.

(** Each physics operation is called at most once. *)
Lemma simulate_no_retry (h : handler) (p : ThrowParameters) :
  (List.length (filter is_shoot (calls (fst (run h (simulate p))))) <= 1)%nat
  /\ (List.length (filter is_post_process
                          (calls (fst (run h (simulate p))))) <= 1)%nat.
Proof.
  unfold simulate. sym_exec h.
  all: cbn; lia.
Qed.

(** [simulate] creates no slider, and plots the remapped sample. *)
Lemma simulate_calls (h : handler) (p : ThrowParameters) (c : call) :
  In c (calls (fst (run h (simulate p)))) ->
  is_slider c = false
  /\ (is_get_plot c = true ->
      exists shot x_new y_new z,
        In shot (samples (fst (run h (simulate p))))
        /\ axis_remap (position shot) = (x_new, y_new, z)
        /\ c = get_plot x_new y_new z).
Proof.
  unfold simulate. sym_exec h.
  all: cbn [samples sample_of]; intros Hin; in_cases Hin.
  all: split; [reflexivity|]; intros Hg; try discriminate.
  all: same_position; do 4 eexists; cbn [In]; split; [left; reflexivity|].
  all: same_position; split; reflexivity.
Qed.

(** A table is presented only for the sample [shoot] returned, and it is
    [flight_table] of the remapped sample. *)
Lemma simulate_table (h : handler) (p : ThrowParameters) (c : call) :
  In c (calls (fst (run h (simulate p)))) -> is_table c = true ->
  exists disc_dict shot table,
    h (DiscGolfDisc (disc_name p)) = Ok disc_dict
    /\ h (shoot disc_dict (U p) (omega p) (pitch p) (0, 0, z0 p)
                (nose p) (roll p)) = Ok shot
    /\ flight_table (axis_remap (position shot)) = Ok table
    /\ c = st_markdown table.
Proof.
  unfold simulate. sym_exec h.
  all: intros Hin Hs; in_cases Hin.
  all: do 3 eexists; repeat split; try eassumption; try reflexivity.
  all: match goal with H : position _ = _ |- _ => rewrite H end; assumption.
Qed.

(** The sample of a run of [simulate] is what [shoot] returned, and there is
    at most one. *)
Lemma simulate_samples (h : handler) (p : ThrowParameters) :
  (List.length (samples (fst (run h (simulate p)))) <= 1)%nat
  /\ forall shot, In shot (samples (fst (run h (simulate p)))) ->
     exists disc_dict,
       h (DiscGolfDisc (disc_name p)) = Ok disc_dict
       /\ h (shoot disc_dict (U p) (omega p) (pitch p) (0, 0, z0 p)
                   (nose p) (roll p)) = Ok shot.
Proof.
  unfold simulate. sym_exec h.
  all: cbn [samples sample_of List.length]; split; [lia|].
  all: intros shot Hin; in_cases Hin.
  all: eexists; split; [reflexivity|assumption].
Qed.

(** When the table can be computed, it is the only table presented, and it
    is presented as soon as the trajectory plot went through. *)
Lemma simulate_presents (h : handler) (p : ThrowParameters) (shot : Shot)
      (table : markdown) :
  In shot (samples (fst (run h (simulate p)))) ->
  flight_table (axis_remap (position shot)) = Ok table ->
  (forall c, In c (calls (fst (run h (simulate p)))) -> is_table c = true ->
             c = st_markdown table)
  /\ (forall x_new y_new z fig,
        axis_remap (position shot) = (x_new, y_new, z) ->
        h (get_plot x_new y_new z) = Ok fig ->
        h (st_plotly_chart fig (Some true)) = Ok tt ->
        In (st_markdown table) (calls (fst (run h (simulate p))))).
Proof.
  unfold simulate. sym_exec h.
  all: cbn [samples sample_of]; intros Hin; in_cases Hin.
  all: same_position; intros Ht.
  all: split; [intros c Hc Hs; in_cases Hc; congruence|].
  all: intros x_new y_new z fig Hr Hg Hp; injection Hr as <- <- <-.
  all: same_answers; cbn [In]; auto 20.
Qed.

(** When the table cannot be computed, the run ends in an exception and
    presents no table; the exception is the table's own as soon as the
    trajectory plot went through. *)
Lemma simulate_table_raises (h : handler) (p : ThrowParameters) (shot : Shot)
      (e : exn) :
  In shot (samples (fst (run h (simulate p)))) ->
  flight_table (axis_remap (position shot)) = Raise e ->
  (exists e', snd (run h (simulate p)) = Raise e')
  /\ (forall c, In c (calls (fst (run h (simulate p)))) -> is_table c = false)
  /\ (forall x_new y_new z fig,
        axis_remap (position shot) = (x_new, y_new, z) ->
        h (get_plot x_new y_new z) = Ok fig ->
        h (st_plotly_chart fig (Some true)) = Ok tt ->
        snd (run h (simulate p)) = Raise e).
Proof.
  unfold simulate. sym_exec h.
  all: cbn [samples sample_of]; intros Hin; in_cases Hin.
  all: same_position; intros Ht; try congruence.
  all: split; [eexists; reflexivity|].
  all: split; [intros c Hc; in_cases Hc; reflexivity|].
  all: intros x_new y_new z fig Hr Hg Hp; injection Hr as <- <- <-.
  all: same_answers; reflexivity.
Qed.

(** [simulate] raises nothing of its own on an identifier of the catalog:
    when the collaborators honour their contract, it returns. *)
Lemma simulate_returns (h : handler) (p : ThrowParameters) :
  In (disc_name p) catalog -> serves_catalog h ->
  snd (run h (simulate p)) = Ok tt.
Proof.
  intros Hcat [Hok Hsample]. unfold simulate.
  sym_exec h;
    try match goal with
        | E : h ?c = Raise _ |- _ =>
            let E' := fresh in
            destruct (Hok c) as [? E']; [cbn; auto|];
            rewrite E in E'; discriminate
        end.
  all: try reflexivity.
  all: match goal with
       | E : _ (shoot ?d ?a ?b ?c ?pos ?n ?r) = Ok ?shot |- _ =>
           pose proof (Hsample (shoot d a b c pos n r) shot) as Hs;
           rewrite E in Hs; destruct (Hs eq_refl) as [HT Hne]
       end.
  all: same_position.
  all: match goal with
       | H : TrajectorySample (?x, ?y, ?z) |- _ =>
           destruct (summary_of_sample x y z H Hne) as (s & _ & Hs' & _)
       end.
  all: cbn [axis_remap] in Hs'; same_answers.
Qed.

(** *** [main] as prelude, [simulate] on the collected values, FAQ *)

Lemma sample_is_shoot (ev : event) (shot : Shot) :
  sample_of ev = Some shot -> is_shoot (ev_call ev) = true.
Proof.
  destruct ev as [c r]. destruct c; cbn; congruence.
Qed.

Lemma in_samples (t : list event) (shot : Shot) :
  In shot (samples t) <-> exists ev, In ev t /\ sample_of ev = Some shot.
Proof.
  induction t as [|ev t IH]; cbn.
  - split; [tauto|]. intros (ev & [] & _).
  - destruct (sample_of ev) as [s|] eqn:E; cbn; rewrite IH; split.
    + intros [<-|(ev' & Hin & Hs)]; eauto.
    + intros (ev' & [<-|Hin] & Hs); [left; congruence|eauto].
    + intros (ev' & Hin & Hs); eauto.
    + intros (ev' & [<-|Hin] & Hs); [congruence|eauto].
Qed.

Lemma main_decomposition (h : handler) :
  exists pre mid post,
    fst (run h main) = (pre ++ mid ++ post)%list
    /\ (forall ev, In ev pre ->
                   core (ev_call ev) = false
                   /\ (is_slider (ev_call ev) = true ->
                       In (ev_call ev) declared_sliders))
    /\ (mid = []
        \/ exists p, snd (run h collect) = Ok p
                     /\ mid = fst (run h (simulate p))
                     /\ (forall e, snd (run h (simulate p)) = Raise e ->
                                   snd (run h main) = Raise e))
    /\ (forall ev, In ev post -> ev_call ev = st_markdown faq).
Proof.
  assert (forall ev, In ev (fst (run h collect)) ->
                     core (ev_call ev) = false
                     /\ (is_slider (ev_call ev) = true ->
                         In (ev_call ev) declared_sliders))
    as Hcollect.
  { intros ev Hin. apply (in_map ev_call) in Hin.
    exact (collect_calls h _ Hin). }
  assert (forall c, core c = false -> is_slider c = false ->
                    core c = false
                    /\ (is_slider c = true -> In c declared_sliders))
    as Hplain by (intros c H1 H2; split; [exact H1|congruence]).
  unfold main. cbn [bind perform run].
  destruct (h (st_tabs ["Simulator"; "FAQ"])) as [u1|e1].
  2:{ eexists [_], [], []. cbn [fst app]. split; [reflexivity|].
      split; [intros ev [<-|[]]; apply Hplain; reflexivity|].
      split; [auto|intros ev []]. }
  destruct (h (st_sidebar_markdown VisitorBadge)) as [u2|e2].
  2:{ eexists [_; _], [], []. cbn [fst app]. split; [reflexivity|].
      split; [intros ev [<-|[<-|[]]]; apply Hplain; reflexivity|].
      split; [auto|intros ev []]. }
  rewrite run_bind.
  destruct (run h collect) as [tc [p|e]] eqn:Ec; cbn [fst snd] in *.
  2:{ eexists (_ :: _ :: tc), [], []. cbn [fst app]. rewrite app_nil_r.
      split; [reflexivity|].
      split; [intros ev [<-|[<-|Hin]]; auto; apply Hplain; reflexivity|].
      split; [auto|intros ev []]. }
  rewrite run_bind.
  destruct (run h (simulate p)) as [ts [u|e]] eqn:Es; cbn [run].
  2:{ eexists (_ :: _ :: tc), ts, []. cbn [fst snd app]. rewrite app_nil_r.
      split; [reflexivity|].
      split; [intros ev [<-|[<-|Hin]]; auto; apply Hplain; reflexivity|].
      split; [|intros ev []].
      right. exists p. rewrite Es. cbn [fst snd].
      split; [reflexivity|]. split; [reflexivity|].
      intros e' He'. congruence. }
  destruct (h (st_markdown faq)) as [u3|e3].
  all: eexists (_ :: _ :: tc), ts, [_]; cbn [fst snd app].
  all: split; [reflexivity|].
  all: split; [intros ev [<-|[<-|Hin]]; auto; apply Hplain; reflexivity|].
  all: split; [|intros ev [<-|[]]; reflexivity].
  all: right; exists p; rewrite Es; cbn [fst snd].
  all: split; [reflexivity|]; split; [reflexivity|].
  all: intros e' He'; discriminate.
Qed.

(** A physics call, a plot of the trajectory or a table in a run of [main]
    belongs to the run of [simulate] on the collected values. *)
Lemma main_core (h : handler) (ev : event) :
  In ev (fst (run h main)) -> core (ev_call ev) = true ->
  exists p, flight_of h p /\ In ev (fst (run h (simulate p))).
Proof.
  unfold flight_of.
  destruct (main_decomposition h)
    as (pre & mid & post & Heq & Hpre & Hmid & Hpost).
  rewrite Heq. intros Hin Hcore.
  assert (In ev mid) as Hmidin.
  { apply in_app_or in Hin. destruct Hin as [Hin|Hin].
    { destruct (Hpre _ Hin) as [Hc _]. congruence. }
    apply in_app_or in Hin. destruct Hin as [Hin|Hin]; [exact Hin|].
    rewrite (Hpost _ Hin) in Hcore. discriminate. }
  destruct Hmid as [->|(p & Hp & -> & Hraise)]; [destruct Hmidin|].
  exists p. repeat split; auto.
  - intros ev' Hin'. apply in_or_app. right. apply in_or_app. left. exact Hin'.
  - intros ev' Hin' Hcore'.
    apply in_app_or in Hin'. destruct Hin' as [Hin'|Hin'].
    { destruct (Hpre _ Hin') as [Hc _]. congruence. }
    apply in_app_or in Hin'. destruct Hin' as [Hin'|Hin']; [exact Hin'|].
    rewrite (Hpost _ Hin') in Hcore'. discriminate.
Qed.

Lemma main_core_call (h : handler) (c : call) :
  In c (calls (fst (run h main))) -> core c = true ->
  exists p, flight_of h p /\ In c (calls (fst (run h (simulate p)))).
Proof.
  intros Hin Hcore. apply in_map_iff in Hin. destruct Hin as (ev & <- & Hin).
  destruct (main_core h ev Hin Hcore) as (p & Hp & Hin').
  exists p. split; [exact Hp|]. apply in_map. exact Hin'.
Qed.

Lemma main_sample (h : handler) (shot : Shot) :
  In shot (samples (fst (run h main))) ->
  exists p, flight_of h p /\ In shot (samples (fst (run h (simulate p)))).
Proof.
  rewrite in_samples. intros (ev & Hin & Hs).
  assert (core (ev_call ev) = true) as Hcore.
  { unfold core. rewrite (sample_is_shoot _ _ Hs). reflexivity. }
  destruct (main_core h ev Hin Hcore) as (p & Hp & Hin').
  exists p. split; [exact Hp|]. apply in_samples. eauto.
Qed.

Lemma flight_of_calls (h : handler) (p : ThrowParameters) (c : call) :
  flight_of h p -> core c = true ->
  (In c (calls (fst (run h main)))
   <-> In c (calls (fst (run h (simulate p))))).
Proof.
  intros (_ & Hsub & Hsup & _) Hcore. split; intros Hin;
    apply in_map_iff in Hin; destruct Hin as (ev & <- & Hin);
    apply in_map; auto.
Qed.


(** The sliders of a run of [main] are among the six declared ones. *)
Lemma main_sliders (h : handler) (c : call) :
  In c (calls (fst (run h main))) -> is_slider c = true ->
  In c declared_sliders.
Proof.
  destruct (main_decomposition h)
    as (pre & mid & post & -> & Hpre & Hmid & Hpost).
  intros Hin Hs. apply in_map_iff in Hin. destruct Hin as (ev & <- & Hin).
  apply in_app_or in Hin. destruct Hin as [Hin|Hin].
  { destruct (Hpre _ Hin) as [_ Hsl]. auto. }
  apply in_app_or in Hin. destruct Hin as [Hin|Hin].
  - destruct Hmid as [->|(p & _ & -> & _)]; [destruct Hin|].
    apply (in_map ev_call) in Hin.
    destruct (simulate_calls h p _ Hin) as [Hno _]. congruence.
  - rewrite (Hpost _ Hin) in Hs. discriminate.
Qed.

Lemma filter_none {A : Type} (f : A -> bool) (l : list A) :
  (forall a, In a l -> f a = false) -> filter f l = [].
Proof.
  induction l as [|a l IH]; cbn; intros H; [reflexivity|].
  rewrite (H a (or_introl eq_refl)). apply IH. intros b Hb. apply H. auto.
Qed.

(** [main] calls each physics operation at most once. *)
Lemma main_no_retry (h : handler) :
  (List.length (filter is_shoot (calls (fst (run h main)))) <= 1)%nat
  /\ (List.length (filter is_post_process
                          (calls (fst (run h main)))) <= 1)%nat.
Proof.
  destruct (main_decomposition h)
    as (pre & mid & post & -> & Hpre & Hmid & Hpost).
  unfold calls. rewrite !map_app, !filter_app, !length_app.
  assert (forall c, In c (map ev_call pre) -> core c = false) as Hpre'.
  { intros c Hc. apply in_map_iff in Hc. destruct Hc as (ev & <- & Hin).
    apply Hpre. exact Hin. }
  assert (forall c, In c (map ev_call post) -> core c = false) as Hpost'.
  { intros c Hc. apply in_map_iff in Hc. destruct Hc as (ev & <- & Hin).
    rewrite (Hpost _ Hin). reflexivity. }
  assert (forall c, core c = false ->
                    is_shoot c = false /\ is_post_process c = false) as Hc.
  { intros c. unfold core. destruct (is_shoot c), (is_post_process c); auto;
      discriminate. }
  rewrite (filter_none is_shoot (map ev_call pre)),
          (filter_none is_shoot (map ev_call post)),
          (filter_none is_post_process (map ev_call pre)),
          (filter_none is_post_process (map ev_call post));
    try (intros c Hin; apply Hc; auto).
  cbn [List.length]. rewrite !Nat.add_0_r.
  destruct Hmid as [->|(p & _ & -> & _)]; [cbn; lia|].
  apply simulate_no_retry.
Qed.


Lemma getitem_keys (d : dict) (k : string) :
  In k (keys d) -> exists v, getitem d k = Ok v /\ In v (map snd d).
Proof.
  induction d as [|[k' v'] d IH]; cbn; [tauto|]. intros Hin.
  destruct (String.eqb k' k) eqn:E; [eauto|].
  destruct Hin as [->|Hin]; [rewrite String.eqb_refl in E; discriminate|].
  destruct (IH Hin) as (v & Hv & Hin'). eauto.
Qed.

(** With collaborators that honour their contract and a select box that
    answers with one of its options, [collect] returns, with an identifier of
    the catalog. *)
Lemma collect_returns_catalog (h : handler) :
  serves_catalog h ->
  (forall sel, h (st_sidebar_selectbox "Disc Selection" (keys disc_names))
               = Ok sel -> In sel (keys disc_names)) ->
  exists p, snd (run h collect) = Ok p /\ In (disc_name p) catalog.
Proof.
  intros [Hok _] Hsel. unfold collect.
  assert (forall sel, h (st_sidebar_selectbox "Disc Selection"
                                              (keys disc_names)) = Ok sel ->
                      exists id, getitem disc_names sel = Ok id
                                 /\ In id catalog) as Hget.
  { intros sel Hs. apply getitem_keys. apply Hsel. exact Hs. }
  sym_exec h;
    try match goal with
        | E : h ?c = Raise _ |- _ =>
            let E' := fresh in
            destruct (Hok c) as [? E']; [exact I|];
            rewrite E in E'; discriminate
        end.
  - eexists. split; [reflexivity|]. cbn [disc_name].
    destruct (Hget _ eq_refl) as (id & Hid & Hcat). same_answers. exact Hcat.
  - destruct (Hget _ eq_refl) as (id & Hid & Hcat). same_answers.
Qed.

(** Under the same assumptions [main] returns. *)
Lemma main_returns (h : handler) :
  serves_catalog h ->
  (forall sel, h (st_sidebar_selectbox "Disc Selection" (keys disc_names))
               = Ok sel -> In sel (keys disc_names)) ->
  snd (run h main) = Ok tt.
Proof.
  intros Hserve Hsel.
  destruct (collect_returns_catalog h Hserve Hsel) as (p & Hp & Hcat).
  pose proof (simulate_returns h p Hcat Hserve) as Hsim.
  destruct Hserve as [Hok _].
  unfold main. rewrite !snd_run_bind. cbn [run perform].
  destruct (Hok (st_tabs ["Simulator"; "FAQ"]) I) as [u1 ->]. cbn [snd].
  destruct (Hok (st_sidebar_markdown VisitorBadge) I) as [u2 ->]. cbn [snd].
  rewrite Hp, !snd_run_bind, Hsim, ?snd_run_bind. cbn [run perform].
  destruct (Hok (st_markdown faq) I) as [u3 ->]. reflexivity.
Qed.

(** * The claims *)

(** C1 (as amended).  For every non-empty trajectory sample that [shoot]
    returns in a run of [main], the four reductions are the minimum of new_x,
    the maximum of new_x, the maximum of the original z and the maximum of
    new_y, where (new_x, new_y) = (-y, x) is the remapped series; every flight
    table the page presents shows these four values rounded to two decimals,
    and the table is presented once the trajectory plot has gone through. *)
Theorem C1_table_shows_rounded_reductions
        (h : handler) (shot : Shot) (x y z : list float) :
  In shot (samples (fst (run h main))) ->
  position shot = (x, y, z) ->
  TrajectorySample (x, y, z) -> non_empty (x, y, z) ->
  exists s : FlightSummary,
    axis_remap (x, y, z) = (map PrimFloat.opp y, x, z)
    /\ flight_summary (axis_remap (x, y, z)) = Ok s
    /\ minimum_of (drift_left s) (map PrimFloat.opp y)
    /\ maximum_of (drift_right s) (map PrimFloat.opp y)
    /\ maximum_of (max_height s) z
    /\ maximum_of (distance s) x
    /\ (forall c, In c (calls (fst (run h main))) -> is_table c = true ->
          c = st_markdown
                (FlightTable (round2 (drift_left s)) (round2 (drift_right s))
                             (round2 (max_height s)) (round2 (distance s))))
    /\ (forall fig,
          h (get_plot (map PrimFloat.opp y) x z) = Ok fig ->
          h (st_plotly_chart fig (Some true)) = Ok tt ->
          In (st_markdown
                (FlightTable (round2 (drift_left s)) (round2 (drift_right s))
                             (round2 (max_height s)) (round2 (distance s))))
             (calls (fst (run h main)))).
Proof.
  intros Hin Hpos HT Hne.
  destruct (summary_of_sample x y z HT Hne)
    as (s & Hs & Htab & [_ Hmin] & [_ Hmax] & [_ Hz] & [_ Hx]).
  exists s.
  assert (axis_remap (x, y, z) = (map PrimFloat.opp y, x, z)) as Hremap
    by (cbn [axis_remap]; rewrite remap_row; reflexivity).
  repeat (split; [assumption|]).
  destruct (main_sample h shot Hin) as (p & Hflight & Hin').
  rewrite <- Hpos in Htab, Hremap.
  destruct (simulate_presents h p shot (table_of s) Hin' Htab)
    as [Honly Hshown].
  split.
  - intros c Hc Ht.
    assert (core c = true) as Hcore
      by (unfold core; rewrite Ht, !orb_true_r; reflexivity).
    apply (flight_of_calls h p c Hflight Hcore) in Hc.
    exact (Honly c Hc Ht).
  - intros fig Hg Hp.
    apply (flight_of_calls h p _ Hflight); [reflexivity|].
    exact (Hshown _ _ _ fig Hremap Hg Hp).
Qed.

(** C2.  The axis remap sends every sample point (x, y, z) to (-y, x, z),
    exactly; applied twice it sends the point to (-x, -y, z); the z row is
    left as it is. *)
Theorem C2_axis_remap_is_a_quarter_turn (pos : rows) :
  points (axis_remap pos) = map remap_point (points pos)
  /\ (forall x y z : float, remap_point (x, y, z) = (- y, x, z))
  /\ (forall x y z : float,
        remap_point (remap_point (x, y, z)) = (- x, - y, z))
  /\ (let '(x, y, z) := pos in
      axis_remap pos = (map PrimFloat.opp y, x, z)
      /\ axis_remap (axis_remap pos)
         = (map PrimFloat.opp x, map PrimFloat.opp y, z)).
Proof.
  split; [apply points_remap|].
  split; [intros x y z; reflexivity|].
  split; [intros x y z; reflexivity|].
  destruct pos as [[x y] z]. cbn [axis_remap]. rewrite !remap_row. auto.
Qed.

(** C3.  For every non-empty trajectory sample, the drift_left and
    drift_right of the summary, which are what [min] and [max] return on
    new_x and what the table rounds into its first two cells, satisfy
    drift_left <= drift_right, and the two are equal exactly when the new_x
    series is constant. *)
Theorem C3_drift_left_le_drift_right (x y z : list float) :
  TrajectorySample (x, y, z) -> non_empty (x, y, z) ->
  exists s : FlightSummary,
    flight_summary (axis_remap (x, y, z)) = Ok s
    /\ py_min (fst (fst (axis_remap (x, y, z)))) = Ok (drift_left s)
    /\ py_max (fst (fst (axis_remap (x, y, z)))) = Ok (drift_right s)
    /\ flight_table (axis_remap (x, y, z))
       = Ok (FlightTable (round2 (drift_left s)) (round2 (drift_right s))
                         (round2 (max_height s)) (round2 (distance s)))
    /\ (drift_left s <=? drift_right s) = true
    /\ ((drift_left s =? drift_right s) = true
        <-> constant (fst (fst (axis_remap (x, y, z))))).
Proof.
  intros HT Hne.
  destruct (summary_of_sample x y z HT Hne)
    as (s & Hs & Htab & [Hpmin Hmin] & [Hpmax Hmax] & _ & _).
  exists s. split; [exact Hs|].
  split; [cbn [axis_remap fst]; rewrite remap_row; exact Hpmin|].
  split; [cbn [axis_remap fst]; rewrite remap_row; exact Hpmax|].
  split; [exact Htab|].
  cbn [axis_remap fst]. rewrite remap_row.
  apply minimum_le_maximum; auto.
  rewrite all_numeric_opp.
  cbn in HT. destruct HT as (_ & _ & Hnum).
  apply andb_prop in Hnum. destruct Hnum as [Hnum _].
  apply andb_prop in Hnum. tauto.
Qed.

(** A table that was built has four cells. *)
Lemma flight_table_cells (r : rows) (t : markdown) :
  flight_table r = Ok t -> exists a b c d, t = FlightTable a b c d.
Proof.
  destruct r as [[x y] z]. cbn.
  destruct (py_min x); cbn; [|discriminate].
  destruct (py_max x); cbn; [|discriminate].
  destruct (py_max z); cbn; [|discriminate].
  destruct (py_max y); cbn; [|discriminate].
  intros H. injection H as <-. eauto.
Qed.

(** [collect] calls widgets only. *)
Lemma collect_widgets (h : handler) (c : call) :
  In c (calls (fst (run h collect))) -> is_widget c = true.
Proof.
  unfold collect. sym_exec h.
  all: intros Hin; in_cases Hin; reflexivity.
Qed.

(** *** One execution of [simulate], collaborators as a relation *)

Ltac exec_step H :=
  cbn [exec bind perform lift] in H;
  first
    [ destruct H as [(? & ? & ? & -> & H)|(? & ? & -> & ->)]
    | destruct H as [-> ->]
    | match type of H with
      | context [axis_remap ?q] => destruct q as [[? ?] ?] eqn:?;
                                   cbn [axis_remap] in H
      end
    | match type of H with
      | context [lift ?r] => let E := fresh "E" in destruct r eqn:E
      end
    | match type of H with
      | context [let '(_, _) := ?q in _] => is_var q; destruct q
      end ].

(** One execution of [simulate]: the sample it carries was returned by
    [shoot] on the disc built for the parameters, with the parameters as
    arguments, and the table it presents is the table of that sample. *)
Lemma exec_simulate_flight (R : responses) (p : ThrowParameters)
      (t : list event) (r : result unit) :
  exec R (simulate p) t r ->
  (samples t = [] /\ filter is_table (calls t) = [] /\ r <> Ok tt)
  \/ exists disc_dict shot,
       R (DiscGolfDisc (disc_name p)) (Ok disc_dict)
       /\ R (shoot disc_dict (U p) (omega p) (pitch p) (0, 0, z0 p)
                   (nose p) (roll p)) (Ok shot)
       /\ samples t = [shot]
       /\ ((filter is_table (calls t) = [] /\ r <> Ok tt)
           \/ exists table,
                flight_table (axis_remap (position shot)) = Ok table
                /\ filter is_table (calls t) = [st_markdown table]).
Proof.
  unfold simulate. intros H.
  repeat (exec_step H).
  all: try (left; repeat split; [reflexivity..|discriminate]).
  all: right; do 2 eexists; split; [eassumption|]; split; [eassumption|].
  all: split; [reflexivity|].
  all: first
         [ left; split; [reflexivity|discriminate]
         | right;
           match goal with
           | E : flight_table _ = Ok ?a, P : position _ = _ |- _ =>
               destruct (flight_table_cells _ _ E) as (? & ? & ? & ? & ->);
               eexists; split; [rewrite P; exact E|reflexivity]
           end ].
Qed.

(** C4.  [simulate] is deterministic in its sample and summary: when the
    physics model is deterministic (the other collaborators need not be),
    two executions on identical parameters (disc included) carry the same
    trajectory sample, reduce it to the same summary and present the same
    table wherever both have one, and two executions that both return have
    exactly one sample and one table each, the same in both. *)
Theorem C4_simulate_is_deterministic
        (R : responses) (p1 p2 : ThrowParameters)
        (t1 t2 : list event) (r1 r2 : result unit) :
  physics_deterministic R -> p1 = p2 ->
  exec R (simulate p1) t1 r1 -> exec R (simulate p2) t2 r2 ->
  (forall s1 s2, In s1 (samples t1) -> In s2 (samples t2) -> s1 = s2)
  /\ (forall f1 f2, In f1 (summaries t1) -> In f2 (summaries t2) -> f1 = f2)
  /\ (forall c1 c2, In c1 (calls t1) -> In c2 (calls t2) ->
                    is_table c1 = true -> is_table c2 = true -> c1 = c2)
  /\ (r1 = Ok tt -> r2 = Ok tt ->
      samples t1 = samples t2 /\ summaries t1 = summaries t2
      /\ filter is_table (calls t1) = filter is_table (calls t2)
      /\ List.length (samples t1) = 1%nat
      /\ List.length (filter is_table (calls t1)) = 1%nat).
Proof.
  intros HR <- H1 H2.
  apply exec_simulate_flight in H1, H2.
  assert (forall s1 s2, In s1 (samples t1) -> In s2 (samples t2) -> s1 = s2)
    as Hsame.
  { intros s1 s2 Hs1 Hs2.
    destruct H1 as [(E1 & _)|(d1 & s1' & Hd1 & Hshoot1 & E1 & _)];
      rewrite E1 in Hs1; [destruct Hs1|].
    destruct H2 as [(E2 & _)|(d2 & s2' & Hd2 & Hshoot2 & E2 & _)];
      rewrite E2 in Hs2; [destruct Hs2|].
    destruct Hs1 as [<-|[]]. destruct Hs2 as [<-|[]].
    assert (Ok d1 = Ok d2) as Hd
      by (refine (HR _ _ _ _ Hd1 Hd2); reflexivity).
    injection Hd as <-.
    assert (Ok s1' = Ok s2') as Hs
      by (refine (HR _ _ _ _ Hshoot1 Hshoot2); reflexivity).
    injection Hs as <-. reflexivity. }
  assert (forall c1 c2, In c1 (filter is_table (calls t1)) ->
                        In c2 (filter is_table (calls t2)) -> c1 = c2)
    as Htable.
  { intros c1 c2 Hc1 Hc2.
    destruct H1 as [(_ & E1 & _)|(d1 & s1 & _ & _ & Es1 & [(E1 & _)|T1])];
      try (rewrite E1 in Hc1; destruct Hc1).
    destruct H2 as [(_ & E2 & _)|(d2 & s2 & _ & _ & Es2 & [(E2 & _)|T2])];
      try (rewrite E2 in Hc2; destruct Hc2).
    destruct T1 as (table1 & Ht1 & E1), T2 as (table2 & Ht2 & E2).
    rewrite E1 in Hc1. rewrite E2 in Hc2.
    destruct Hc1 as [<-|[]]. destruct Hc2 as [<-|[]].
    assert (s1 = s2) as <-
      by (apply Hsame; [rewrite Es1|rewrite Es2]; left; reflexivity).
    congruence. }
  split; [exact Hsame|]. split.
  { unfold summaries. intros f1 f2 Hf1 Hf2.
    apply in_map_iff in Hf1, Hf2.
    destruct Hf1 as (s1 & <- & Hs1), Hf2 as (s2 & <- & Hs2).
    rewrite (Hsame s1 s2 Hs1 Hs2). reflexivity. }
  split.
  { intros c1 c2 Hc1 Hc2 Ht1 Ht2. apply Htable; apply filter_In; auto. }
  intros -> ->.
  destruct H1 as [(_ & _ & N)|(d1 & s1 & _ & _ & Es1 & [(_ & N)|T1])];
    try (contradiction N; reflexivity).
  destruct H2 as [(_ & _ & N)|(d2 & s2 & _ & _ & Es2 & [(_ & N)|T2])];
    try (contradiction N; reflexivity).
  destruct T1 as (table1 & Ht1 & E1), T2 as (table2 & Ht2 & E2).
  assert (s1 = s2) as <-
    by (apply Hsame; [rewrite Es1|rewrite Es2]; left; reflexivity).
  assert (table1 = table2) as <- by congruence.
  unfold summaries. rewrite Es1, Es2, E1, E2. repeat split; reflexivity.
Qed.

(** When [collect] returns, it has created the six sliders, once each, in
    the order of the source. *)
Lemma collect_sliders (h : handler) (p : ThrowParameters) :
  snd (run h collect) = Ok p ->
  filter is_slider (calls (fst (run h collect)))
  = map st_sidebar_slider
        [nose_slider; roll_slider; U_slider; omega_slider; z0_slider;
         pitch_slider].
Proof.
  unfold collect. sym_exec h.
  all: intros Hp; try discriminate.
  reflexivity.
Qed.

(** A run of [main] that gets past the widgets has collected the parameters
    and created exactly the six sliders. *)
Lemma main_slider_calls (h : handler) (c : call) :
  In c (calls (fst (run h main))) -> is_widget c = false ->
  exists p,
    snd (run h collect) = Ok p
    /\ filter is_slider (calls (fst (run h main)))
       = map st_sidebar_slider
             [nose_slider; roll_slider; U_slider; omega_slider; z0_slider;
              pitch_slider].
Proof.
  intros Hin Hw.
  assert (forall l, (forall c', In c' l -> is_widget c' = true) ->
                    In c l -> False) as Hnot.
  { intros l Hl Hc. rewrite (Hl _ Hc) in Hw. discriminate. }
  revert Hin. unfold main. cbn [bind perform run].
  destruct (h (st_tabs ["Simulator"; "FAQ"])) as [u1|e1].
  2:{ intros Hin. exfalso. refine (Hnot _ _ Hin).
      intros c' [<-|[]]; reflexivity. }
  destruct (h (st_sidebar_markdown VisitorBadge)) as [u2|e2].
  2:{ intros Hin. exfalso. refine (Hnot _ _ Hin).
      intros c' [<-|[<-|[]]]; reflexivity. }
  rewrite run_bind.
  pose proof (collect_widgets h) as Hcw.
  pose proof (collect_sliders h) as Hcs.
  destruct (run h collect) as [tc [p|e]]; cbn [fst snd] in *.
  2:{ intros Hin. exfalso. refine (Hnot _ _ Hin).
      intros c' [<-|[<-|Hc']]; auto. }
  intros _. exists p. split; [reflexivity|].
  rewrite run_bind.
  pose proof (simulate_calls h p) as Hsim.
  destruct (run h (simulate p)) as [ts [[]|e]]; cbn [fst snd run] in *.
  all: assert (filter is_slider (map ev_call ts) = []) as Hts
    by (apply filter_none; intros a Ha; apply (Hsim a Ha)).
  2:{ cbn [calls map filter is_slider].
      unfold calls in *. rewrite map_app, filter_app, (Hcs p eq_refl), Hts.
      reflexivity. }
  destruct (h (st_markdown faq)) as [u3|e3]; cbn [fst snd].
  all: cbn [calls map filter is_slider].
  all: unfold calls in *.
  all: rewrite !map_app, !filter_app, (Hcs p eq_refl), Hts.
  all: reflexivity.
Qed.

(** C5.  The six defaults are 24.2, 116.8, 1.3, 15.5, 0.0 and 14.7; each is
    the initial value of its slider; a run of [main] creates no other
    slider; a run that gets past the widgets has created exactly these six
    sliders, once each, and its parameters are their answers; on the first
    render, when every slider answers with its initial value, the collected
    parameters are the defaults, and so are the arguments of [shoot]. *)
Theorem C5_defaults_are_the_initial_slider_values :
  [default_U; default_omega; default_z0; default_pitch; default_nose;
   default_roll] = [24.2; 116.8; 1.3; 15.5; 0.0; 14.7]
  /\ map value [U_slider; omega_slider; z0_slider; pitch_slider; nose_slider;
                roll_slider]
     = [default_U; default_omega; default_z0; default_pitch; default_nose;
        default_roll]
  /\ (forall (h : handler) (c : call),
        In c (calls (fst (run h main))) -> is_slider c = true ->
        In c declared_sliders)
  /\ (forall (h : handler) (c : call),
        In c (calls (fst (run h main))) -> is_widget c = false ->
        filter is_slider (calls (fst (run h main)))
        = map st_sidebar_slider
              [nose_slider; roll_slider; U_slider; omega_slider; z0_slider;
               pitch_slider]
        /\ exists p : ThrowParameters,
             snd (run h collect) = Ok p
             /\ h (st_sidebar_slider U_slider) = Ok (U p)
             /\ h (st_sidebar_slider omega_slider) = Ok (omega p)
             /\ h (st_sidebar_slider z0_slider) = Ok (z0 p)
             /\ h (st_sidebar_slider pitch_slider) = Ok (pitch p)
             /\ h (st_sidebar_slider nose_slider) = Ok (nose p)
             /\ h (st_sidebar_slider roll_slider) = Ok (roll p))
  /\ (forall (h : handler) (p : ThrowParameters),
        untouched h -> snd (run h collect) = Ok p ->
        [U p; omega p; z0 p; pitch p; nose p; roll p]
        = [24.2; 116.8; 1.3; 15.5; 0.0; 14.7])
  /\ (forall (h : handler) (c : call),
        untouched h ->
        In c (calls (fst (run h main))) -> is_shoot c = true ->
        exists disc_dict : Disc,
          c = shoot disc_dict 24.2 116.8 15.5 (0, 0, 1.3) 0.0 14.7).
Proof.
  assert (forall (h : handler) (p : ThrowParameters),
             untouched h -> snd (run h collect) = Ok p ->
             [U p; omega p; z0 p; pitch p; nose p; roll p]
             = [24.2; 116.8; 1.3; 15.5; 0.0; 14.7]) as Hfirst.
  { intros h p Hh Hp.
    destruct (collect_returns h p Hp) as (_ & Hn & Hr & Hu & Ho & Hz & Hpi).
    rewrite Hh in Hn, Hr, Hu, Ho, Hz, Hpi.
    injection Hn as <-. injection Hr as <-. injection Hu as <-.
    injection Ho as <-. injection Hz as <-. injection Hpi as <-.
    reflexivity. }
  split; [reflexivity|]. split; [reflexivity|].
  split; [exact main_sliders|].
  split; [|split; [exact Hfirst|]].
  - intros h c Hin Hw.
    destruct (main_slider_calls h c Hin Hw) as (p & Hp & Hsl).
    split; [exact Hsl|]. exists p.
    destruct (collect_returns h p Hp) as (_ & Hn & Hr & Hu & Ho & Hz & Hpi).
    repeat (split; [assumption|]). assumption.
  - intros h c Hh Hin Hs.
    assert (core c = true) as Hcore by (unfold core; rewrite Hs; reflexivity).
    destruct (main_core_call h c Hin Hcore) as (p & [Hp _] & Hin').
    destruct (simulate_shoot h p c Hin' Hs) as (d & _ & ->).
    pose proof (Hfirst h p Hh Hp) as Hd.
    injection Hd as -> -> -> -> -> ->. exists d. reflexivity.
Qed.

(** C6.  The sliders declare the closed ranges [0, 40], [0, 200], [0, 2],
    [0, 90], [-45, 90] and [-90, 90]; when the input layer keeps every slider
    within its range, the collected parameters lie in these ranges, and so
    do the arguments of every [shoot] call of [main]. *)
Theorem C6_parameters_stay_in_their_ranges (h : handler) :
  sliders_in_range h ->
  map (fun s => (min_value s, max_value s))
      [U_slider; omega_slider; z0_slider; pitch_slider; nose_slider;
       roll_slider]
  = [(0, 40); (0, 200); (0, 2); (0, 90); (-45, 90); (-90, 90)]
  /\ (forall p, snd (run h collect) = Ok p -> in_declared_ranges p = true)
  /\ (forall disc_dict speed om pit px py pz na ra,
        In (shoot disc_dict speed om pit (px, py, pz) na ra)
           (calls (fst (run h main))) ->
        between 0 40 speed = true /\ between 0 200 om = true
        /\ between 0 2 pz = true /\ between 0 90 pit = true
        /\ between (-45) 90 na = true /\ between (-90) 90 ra = true).
Proof.
  intros Hrange. split; [reflexivity|].
  assert (forall p, snd (run h collect) = Ok p ->
                    between 0 40 (U p) = true
                    /\ between 0 200 (omega p) = true
                    /\ between 0 2 (z0 p) = true
                    /\ between 0 90 (pitch p) = true
                    /\ between (-45) 90 (nose p) = true
                    /\ between (-90) 90 (roll p) = true) as Hcollected.
  { intros p Hp.
    destruct (collect_returns h p Hp) as (_ & Hn & Hr & Hu & Ho & Hz & Hpi).
    assert (forall s, In s [nose_slider; roll_slider; U_slider; omega_slider;
                            z0_slider; pitch_slider] ->
                      In (st_sidebar_slider s) declared_sliders) as Hdecl
      by (intros s Hs; apply in_map; exact Hs).
    repeat split.
    - apply (Hrange U_slider); [apply Hdecl; cbn; auto 10|exact Hu].
    - apply (Hrange omega_slider); [apply Hdecl; cbn; auto 10|exact Ho].
    - apply (Hrange z0_slider); [apply Hdecl; cbn; auto 10|exact Hz].
    - apply (Hrange pitch_slider); [apply Hdecl; cbn; auto 10|exact Hpi].
    - apply (Hrange nose_slider); [apply Hdecl; cbn; auto 10|exact Hn].
    - apply (Hrange roll_slider); [apply Hdecl; cbn; auto 10|exact Hr]. }
  split.
  - intros p Hp. destruct (Hcollected p Hp) as (H1 & H2 & H3 & H4 & H5 & H6).
    unfold in_declared_ranges. rewrite H1, H2, H3, H4, H5, H6. reflexivity.
  - intros disc_dict speed om pit px py pz na ra Hin.
    destruct (main_core_call h _ Hin eq_refl) as (p & [Hp _] & Hin').
    destruct (simulate_shoot h p _ Hin' eq_refl) as (d & _ & Heq).
    injection Heq as -> -> -> -> -> -> -> -> ->.
    exact (Hcollected p Hp).
Qed.


(** C9.  When the physics collaborator raises in [shoot] or in
    [post_process], the exception is the outcome of [main], unchanged; the
    failing call is the last thing the page does and it was made once (no
    retry); and after a failed [shoot] there is neither a trajectory plot
    nor a table (nothing is substituted). *)
Theorem C9_physics_failure_propagates
        (h : handler) (ev : event) (e : exn) :
  In ev (fst (run h main)) -> exception_of ev = Some e ->
  is_shoot (ev_call ev) || is_post_process (ev_call ev) = true ->
  snd (run h main) = Raise e
  /\ (exists t, fst (run h main) = (t ++ [ev])%list
                /\ Forall (fun ev' => raised ev' = false) t
                /\ ~ In (ev_call ev) (calls t))
  /\ (List.length (filter is_shoot (calls (fst (run h main)))) <= 1)%nat
  /\ (List.length (filter is_post_process
                          (calls (fst (run h main)))) <= 1)%nat
  /\ (is_shoot (ev_call ev) = true ->
      forall c, In c (calls (fst (run h main))) ->
                is_table c = false /\ is_get_plot c = false).
Proof.
  intros Hin He Hphys.
  destruct (run_raise_last h main ev e Hin He) as (Hout & t & Ht & Hok).
  split; [exact Hout|]. split.
  { exists t. repeat split; auto. intros Hc.
    apply in_map_iff in Hc. destruct Hc as (ev' & Hcall & Hin').
    rewrite Forall_forall in Hok. pose proof (Hok _ Hin') as Hno.
    assert (In ev' (fst (run h main))) as Hin''
      by (rewrite Ht; apply in_or_app; left; exact Hin').
    destruct ev as [c r], ev' as [c' r']. cbn in Hcall. subst c'.
    rewrite <- (run_answers h main _ _ Hin),
            <- (run_answers h main _ _ Hin'') in *.
    apply exception_raised in He. congruence. }
  split; [apply main_no_retry|]. split; [apply main_no_retry|].
  intros Hs c Hc.
  assert (core (ev_call ev) = true) as Hcore
    by (unfold core; rewrite Hs; reflexivity).
  destruct (main_core h ev Hin Hcore) as (p & Hflight & Hin').
  destruct (simulate_shoot h p _ (in_map ev_call _ _ Hin') Hs)
    as (d & Hd & Hcall).
  assert (h (shoot d (U p) (omega p) (pitch p) (0, 0, z0 p) (nose p)
                   (roll p)) = Raise e) as Hfail.
  { destruct ev as [c0 r0]. cbn in Hcall. subst c0.
    rewrite (run_answers h main _ _ Hin).
    destruct r0; cbn in He; congruence. }
  assert (forall shot, ~ In shot (samples (fst (run h (simulate p)))))
    as Hnone.
  { intros shot Hshot.
    destruct (simulate_samples h p) as [_ Hsam].
    destruct (Hsam shot Hshot) as (d' & Hd' & Hshoot).
    rewrite Hd in Hd'. injection Hd' as <-. congruence. }
  split.
  - destruct (is_table c) eqn:Ht'; [|reflexivity]. exfalso.
    assert (core c = true) as Hcore'
      by (unfold core; rewrite Ht', !orb_true_r; reflexivity).
    apply (flight_of_calls h p c Hflight Hcore') in Hc.
    destruct (simulate_table h p c Hc Ht')
      as (d' & shot & table & Hd' & Hshoot & _).
    rewrite Hd in Hd'. injection Hd' as <-. congruence.
  - destruct (is_get_plot c) eqn:Hg; [|reflexivity]. exfalso.
    assert (core c = true) as Hcore'
      by (unfold core; rewrite Hg, !orb_true_r; reflexivity).
    apply (flight_of_calls h p c Hflight Hcore') in Hc.
    destruct (simulate_calls h p c Hc) as [_ Hplot].
    destruct (Hplot Hg) as (shot & _ & _ & _ & Hshot & _).
    exact (Hnone shot Hshot).
Qed.

(** C10.  When [shoot] returns a position series of length zero, [main] does
    not present a table: the run ends in an exception, which is the
    [ValueError] of [min] over the empty row as soon as the plot of the
    (empty) trajectory has gone through.  For a non-empty sample the table
    is computed without an exception. *)
Theorem C10_summary_needs_a_non_empty_sample (h : handler) (shot : Shot) :
  In shot (samples (fst (run h main))) ->
  (position shot = ([], [], []) ->
   flight_table (axis_remap (position shot))
   = Raise (ValueError "min() arg is an empty sequence")
   /\ (exists e, snd (run h main) = Raise e)
   /\ (forall c, In c (calls (fst (run h main))) -> is_table c = false)
   /\ (forall fig,
         h (get_plot [] [] []) = Ok fig ->
         h (st_plotly_chart fig (Some true)) = Ok tt ->
         snd (run h main)
         = Raise (ValueError "min() arg is an empty sequence")))
  /\ (TrajectorySample (position shot) -> non_empty (position shot) ->
      exists table, flight_table (axis_remap (position shot)) = Ok table).
Proof.
  intros Hin. split.
  - intros Hpos.
    assert (flight_table (axis_remap (position shot))
            = Raise (ValueError "min() arg is an empty sequence")) as Hraise
      by (rewrite Hpos; reflexivity).
    split; [exact Hraise|].
    destruct (main_sample h shot Hin) as (p & Hflight & Hin').
    destruct (simulate_table_raises h p shot _ Hin' Hraise)
      as ((e' & He') & Hnone & Hmin).
    destruct Hflight as (Hp & Hsub & Hsup & Hout).
    split; [exists e'; exact (Hout _ He')|]. split.
    + intros c Hc. destruct (is_table c) eqn:Ht; [|reflexivity].
      assert (core c = true) as Hcore
        by (unfold core; rewrite Ht, !orb_true_r; reflexivity).
      apply in_map_iff in Hc. destruct Hc as (ev & <- & Hev).
      rewrite <- Ht. apply Hnone. apply in_map. apply Hsup; auto.
    + intros fig Hg Hc. apply Hout.
      apply (Hmin [] [] [] fig); auto. rewrite Hpos. reflexivity.
  - destruct (position shot) as [[x y] z]. intros HT Hne.
    destruct (summary_of_sample x y z HT Hne) as (s & _ & Htab & _).
    eauto.
Qed.

(** * More of the page *)

(** ** The frame of the page around the flight *)

Lemma getitem_missing (d : dict) (k : string) :
  ~ In k (keys d) -> getitem d k = Raise (KeyError k).
Proof.
  induction d as [|[k' v] d IH]; cbn; intros Hk; [reflexivity|].
  destruct (String.eqb k' k) eqn:E.
  - apply String.eqb_eq in E. tauto.
  - apply IH. tauto.
Qed.


Lemma simulate_not_widget (h : handler) (p : ThrowParameters) (c : call) :
  In c (calls (fst (run h (simulate p)))) ->
  is_widget c = false /\ is_faq c = false.
Proof.
  unfold simulate. sym_exec h.
  all: intros Hin; in_cases Hin; split; try reflexivity.
  all: match goal with
       | E : flight_table _ = Ok ?t |- is_faq (st_markdown ?t) = false =>
           destruct t; try reflexivity; cbn in E;
           repeat match type of E with
                  | rbind ?r _ = _ => destruct r; cbn in E
                  end; discriminate
       end.
Qed.

(** A run of [main] is: frame and widgets; then, when [collect] returned,
    the run of [simulate] on what it returned; then, when that returned
    too, the FAQ. *)
Lemma main_parts (h : handler) :
  exists pre mid post,
    fst (run h main) = (pre ++ mid ++ post)%list
    /\ (forall ev, In ev pre -> is_widget (ev_call ev) = true)
    /\ ((mid = [] /\ post = [] /\ exists e, snd (run h main) = Raise e)
        \/ exists p,
             snd (run h collect) = Ok p
             /\ mid = fst (run h (simulate p))
             /\ ((post = [] /\ exists e,
                     snd (run h (simulate p)) = Raise e
                     /\ snd (run h main) = Raise e)
                 \/ (snd (run h (simulate p)) = Ok tt
                     /\ exists r, post = [Ev (st_markdown faq) r]
                                  /\ h (st_markdown faq) = r
                                  /\ snd (run h main)
                                     = match r with
                                       | Ok _ => Ok tt
                                       | Raise e => Raise e
                                       end))).
Proof.
  assert (forall ev, In ev (fst (run h collect)) ->
                     is_widget (ev_call ev) = true) as Hcollect.
  { intros ev Hin. apply (in_map ev_call) in Hin.
    exact (collect_widgets h _ Hin). }
  unfold main. cbn [bind perform run].
  destruct (h (st_tabs ["Simulator"; "FAQ"])) as [u1|e1].
  2:{ eexists [_], [], []. cbn [fst snd app]. split; [reflexivity|].
      split; [intros ev [<-|[]]; reflexivity|]. left. eauto. }
  destruct (h (st_sidebar_markdown VisitorBadge)) as [u2|e2].
  2:{ eexists [_; _], [], []. cbn [fst snd app]. split; [reflexivity|].
      split; [intros ev [<-|[<-|[]]]; reflexivity|]. left. eauto. }
  rewrite run_bind.
  destruct (run h collect) as [tc [p|e]] eqn:Ec; cbn [fst snd] in *.
  2:{ eexists (_ :: _ :: tc), [], []. cbn [fst snd app].
      rewrite app_nil_r. split; [reflexivity|].
      split; [intros ev [<-|[<-|Hin]]; auto|]. left. eauto. }
  rewrite run_bind.
  destruct (run h (simulate p)) as [ts [[]|e]] eqn:Es; cbn [run].
  2:{ eexists (_ :: _ :: tc), ts, []. cbn [fst snd app].
      rewrite app_nil_r. split; [reflexivity|].
      split; [intros ev [<-|[<-|Hin]]; auto|].
      right. exists p. rewrite Es. cbn [fst snd].
      split; [reflexivity|]. split; [reflexivity|]. left. eauto. }
  destruct (h (st_markdown faq)) as [u3|e3] eqn:Ef.
  all: eexists (_ :: _ :: tc), ts, [_]; cbn [fst snd app].
  all: split; [reflexivity|].
  all: split; [intros ev [<-|[<-|Hin]]; auto|].
  all: right; exists p; rewrite Es; cbn [fst snd].
  all: split; [reflexivity|]; split; [reflexivity|]; right.
  all: split; [reflexivity|]; eexists; split; [reflexivity|].
  all: split; reflexivity.
Qed.

(** A call of [main] that is neither frame, widget nor FAQ is a call of
    [simulate] on the collected values, and every call of that [simulate]
    is a call of [main]. *)
Lemma main_flight_event (h : handler) (ev : event) :
  In ev (fst (run h main)) ->
  is_widget (ev_call ev) = false -> is_faq (ev_call ev) = false ->
  exists p,
    snd (run h collect) = Ok p
    /\ In ev (fst (run h (simulate p)))
    /\ (forall ev', In ev' (fst (run h (simulate p))) ->
                    In ev' (fst (run h main))).
Proof.
  destruct (main_parts h) as (pre & mid & post & -> & Hpre & Hrest).
  intros Hin Hw Hf.
  assert (In ev mid /\ exists p, snd (run h collect) = Ok p
                                 /\ mid = fst (run h (simulate p)))
    as [Hmid (p & Hp & ->)].
  { apply in_app_or in Hin. destruct Hin as [Hin|Hin].
    { rewrite (Hpre _ Hin) in Hw. discriminate. }
    apply in_app_or in Hin.
    destruct Hrest as [(-> & -> & _)|(p & Hp & -> & Hpost)].
    { destruct Hin as [[]|[]]. }
    destruct Hin as [Hin|Hin]; [eauto|].
    destruct Hpost as [(-> & _)|(_ & r & -> & _)]; [destruct Hin|].
    destruct Hin as [<-|[]]. discriminate. }
  exists p. repeat split; auto.
  intros ev' Hin'. apply in_or_app. right. apply in_or_app. left. exact Hin'.
Qed.

Lemma main_flight_call (h : handler) (c : call) :
  In c (calls (fst (run h main))) ->
  is_widget c = false -> is_faq c = false ->
  exists p,
    snd (run h collect) = Ok p
    /\ In c (calls (fst (run h (simulate p))))
    /\ (forall c', In c' (calls (fst (run h (simulate p)))) ->
                   In c' (calls (fst (run h main)))).
Proof.
  intros Hin Hw Hf. apply in_map_iff in Hin. destruct Hin as (ev & <- & Hin).
  destruct (main_flight_event h ev Hin Hw Hf) as (p & Hp & Hin' & Hsub).
  exists p. split; [exact Hp|]. split; [apply in_map; exact Hin'|].
  intros c' Hc'. apply in_map_iff in Hc'. destruct Hc' as (ev' & <- & Hev').
  apply in_map. auto.
Qed.

(** ** What [simulate] does around the flight *)

Ltac in_calls H :=
  cbn [In] in H;
  repeat (destruct H as [H|H];
          [first [discriminate H | subst | idtac]|]);
  try contradiction.

Ltac answered :=
  repeat match goal with
         | E : ?l = _, H : exception_of (Ev _ ?l) = _ |- _ => rewrite E in H
         end.


(** The preview is drawn once, from a deep copy of the mesh of the disc that
    is thrown, at the nose and roll angles. *)
Lemma simulate_preview (h : handler) (p : ThrowParameters) (c : call) :
  In c (calls (fst (run h (simulate p)))) -> is_visualize c = true ->
  exists disc_dict stored stl_mesh,
    h (DiscGolfDisc (disc_name p)) = Ok disc_dict
    /\ h (stl_meshes (disc_name p)) = Ok stored
    /\ h (deepcopy stored) = Ok stl_mesh
    /\ c = visualize_disc stl_mesh (nose p) (roll p)
    /\ filter is_visualize (calls (fst (run h (simulate p)))) = [c].
Proof.
  unfold simulate. sym_exec h.
  all: intros Hin Hs; in_cases Hin.
  all: do 3 eexists; repeat split; try eassumption; reflexivity.
Qed.

(** When [shoot] is called, the preview has been drawn and charted. *)
Lemma simulate_preview_first (h : handler) (p : ThrowParameters) (c : call) :
  In c (calls (fst (run h (simulate p)))) -> is_shoot c = true ->
  exists stored stl_mesh fig before after,
    h (stl_meshes (disc_name p)) = Ok stored
    /\ h (deepcopy stored) = Ok stl_mesh
    /\ h (visualize_disc stl_mesh (nose p) (roll p)) = Ok fig
    /\ calls (fst (run h (simulate p))) = (before ++ c :: after)%list
    /\ In (st_markdown DiscOrientationText) before
    /\ In (st_plotly_chart fig None) before.
Proof.
  unfold simulate. sym_exec h.
  all: intros Hin Hs; in_cases Hin.
  all: eexists _, _, _, [_; _; _; _; _; _; _; _; _], _.
  all: split; [first [eassumption|reflexivity]|].
  all: split; [first [eassumption|reflexivity]|].
  all: split; [first [eassumption|reflexivity]|].
  all: split; [reflexivity|]; cbn [In]; auto 10.
Qed.

(** When a step of the preview raises, nothing is charted and [shoot] is
    not called. *)
Lemma simulate_preview_fails (h : handler) (p : ThrowParameters) (c : call)
      (e : exn) :
  In c (calls (fst (run h (simulate p)))) -> is_preview_step c = true ->
  exception_of (Ev c (h c)) = Some e ->
  forall c', In c' (calls (fst (run h (simulate p)))) ->
             is_chart c' = false /\ is_shoot c' = false.
Proof.
  unfold simulate. sym_exec h.
  all: intros Hin Hs He; in_cases Hin.
  all: answered; try discriminate.
  all: intros c' Hc'; in_cases Hc'; split; reflexivity.
Qed.


(** When the trajectory plot raises, the sample is there but no table is
    presented. *)
Lemma simulate_plot_fails (h : handler) (p : ThrowParameters) (c : call)
      (e : exn) :
  In c (calls (fst (run h (simulate p)))) -> is_get_plot c = true ->
  exception_of (Ev c (h c)) = Some e ->
  (exists shot, samples (fst (run h (simulate p))) = [shot])
  /\ forall c', In c' (calls (fst (run h (simulate p)))) ->
                is_table c' = false /\ is_post_process c' = false.
Proof.
  unfold simulate. sym_exec h.
  all: intros Hin Hs He; in_cases Hin.
  all: answered; try discriminate.
  all: split; [eexists; reflexivity|].
  all: intros c' Hc'; in_cases Hc'; split; reflexivity.
Qed.


(** The call that follows [shoot]'s sample through: [post_process] gets
    the disc, the sample and the spin of the [shoot] call. *)
Lemma simulate_subplots (h : handler) (p : ThrowParameters) (c : call) :
  In c (calls (fst (run h (simulate p)))) -> is_subplots c = true ->
  exists disc_dict shot arc alphas betas lifts drags moms rolls,
    h (DiscGolfDisc (disc_name p)) = Ok disc_dict
    /\ h (shoot disc_dict (U p) (omega p) (pitch p) (0, 0, z0 p)
                (nose p) (roll p)) = Ok shot
    /\ h (post_process disc_dict shot (omega p))
       = Ok (arc, alphas, betas, lifts, drags, moms, rolls)
    /\ c = get_subplots arc alphas lifts drags moms rolls (velocity shot).
Proof.
  unfold simulate. sym_exec h.
  all: intros Hin Hs; in_cases Hin.
  all: do 9 eexists; repeat split; try eassumption; reflexivity.
Qed.



(** ** Facts for the further properties *)

Lemma collect_unknown_disc (h : handler) (sel : string) :
  h (st_sidebar_selectbox "Disc Selection" (keys disc_names)) = Ok sel ->
  ~ In sel (keys disc_names) ->
  run h collect
  = ([Ev (st_sidebar_selectbox "Disc Selection" (keys disc_names)) (Ok sel)],
     Raise (KeyError sel)).
Proof.
  intros Hs Hk. unfold collect. cbn [run bind perform].
  rewrite Hs. cbn [lift bind run]. rewrite (getitem_missing _ _ Hk).
  reflexivity.
Qed.

Lemma widget_not_shown (c : call) : is_widget c = true -> is_shown c = false.
Proof.
  destruct c; cbn; congruence.
Qed.

Lemma shown_not_widget (c : call) :
  is_shown c = true -> is_faq c = false ->
  is_widget c = false /\ (is_chart c = true \/ is_table c = true).
Proof.
  unfold is_shown. intros Hs Hf. rewrite Hf, orb_false_r in Hs.
  apply orb_prop in Hs. split; [|exact Hs].
  destruct c; try reflexivity; cbn in Hs; destruct Hs; discriminate.
Qed.

Lemma ev_answer (h : handler) {A : Type} (p : prog A) (ev : event) (e : exn) :
  In ev (fst (run h p)) -> exception_of ev = Some e ->
  exception_of (Ev (ev_call ev) (h (ev_call ev))) = Some e.
Proof.
  intros Hin He. destruct ev as [c r]. cbn [ev_call].
  rewrite (run_answers h p c r Hin). exact He.
Qed.

Lemma scan_keeps_first (better : float -> float -> bool)
      (rest : list float) (first : float) :
  (forall v, In v rest -> better v first = false) ->
  fold_left (fun best item => if better item best then item else best)
            rest first = first.
Proof.
  induction rest as [|v rest IH]; cbn; intros H; [reflexivity|].
  rewrite (H v (or_introl eq_refl)). apply IH. auto.
Qed.

Lemma SFltb_opp (a b : spec_float) :
  SFltb (SFopp a) (SFopp b) = SFltb b a.
Proof.
  unfold SFltb.
  destruct a as [[]|[]| |[] m e], b as [[]|[]| |[] m' e']; cbn;
    try reflexivity.
  all: rewrite (Z.compare_antisym e e');
    change (Pos.compare_cont Eq m m') with (Pos.compare m m');
    change (Pos.compare_cont Eq m' m) with (Pos.compare m' m);
    rewrite (Pos.compare_antisym m m');
    destruct (Z.compare e e'); cbn; try reflexivity;
    destruct (Pos.compare m m'); reflexivity.
Qed.

Lemma ltb_opp (a b : float) : (- a <? - b) = (b <? a).
Proof.
  rewrite !ltb_spec, !opp_spec. apply SFltb_opp.
Qed.

(** ** The rest of the page *)


(** X1.  When the select box answers a name that is not a key of
    [disc_names], the lookup raises [KeyError] with that name: this is the
    outcome of [main], and the select box is the last thing the page did (no
    slider is created, no disc is built). *)
Theorem unknown_disc_raises_KeyError (h : handler) (sel : string) :
  In (st_sidebar_selectbox "Disc Selection" (keys disc_names))
     (calls (fst (run h main))) ->
  h (st_sidebar_selectbox "Disc Selection" (keys disc_names)) = Ok sel ->
  ~ In sel (keys disc_names) ->
  snd (run h main) = Raise (KeyError sel)
  /\ (exists u1 u2,
        fst (run h main)
        = [Ev (st_tabs ["Simulator"; "FAQ"]) (Ok u1);
           Ev (st_sidebar_markdown VisitorBadge) (Ok u2);
           Ev (st_sidebar_selectbox "Disc Selection" (keys disc_names))
              (Ok sel)]).
Proof.
  intros Hin Hs Hk. revert Hin. unfold main. cbn [bind perform run].
  destruct (h (st_tabs ["Simulator"; "FAQ"])) as [u1|e1];
    [|intros Hin; in_calls Hin].
  destruct (h (st_sidebar_markdown VisitorBadge)) as [u2|e2];
    [|intros Hin; in_calls Hin].
  intros _. rewrite run_bind, (collect_unknown_disc h sel Hs Hk).
  cbn [fst snd app]. split; [reflexivity|]. exists u1, u2. reflexivity.
Qed.

(** Past the widgets, what a filter keeps of the calls of [main] is what it
    keeps of the calls of [simulate], when it keeps no widget and no FAQ. *)
Lemma main_filter_flight (h : handler) (f : call -> bool) (c : call) :
  (forall c', is_widget c' = true -> f c' = false) ->
  f (st_markdown faq) = false ->
  In c (calls (fst (run h main))) ->
  is_widget c = false -> is_faq c = false ->
  exists p,
    snd (run h collect) = Ok p
    /\ filter f (calls (fst (run h main)))
       = filter f (calls (fst (run h (simulate p)))).
Proof.
  intros Hfw Hff Hin Hw Hf.
  destruct (main_parts h) as (pre & mid & post & Heq & Hpre & Hrest).
  destruct Hrest as [(-> & -> & _)|(p & Hp & -> & Hpost)].
  { exfalso. rewrite Heq, !app_nil_r in Hin.
    apply in_map_iff in Hin. destruct Hin as (ev & <- & Hev).
    rewrite (Hpre _ Hev) in Hw. discriminate. }
  exists p. split; [exact Hp|].
  rewrite Heq. unfold calls. rewrite !map_app, !filter_app.
  rewrite (filter_none f (map ev_call pre)).
  2:{ intros c' Hc'. apply in_map_iff in Hc'. destruct Hc' as (ev & <- & Hev).
      apply Hfw, Hpre, Hev. }
  rewrite (filter_none f (map ev_call post)); [cbn [app]; apply app_nil_r|].
  intros c' Hc'. apply in_map_iff in Hc'. destruct Hc' as (ev & <- & Hev).
  destruct Hpost as [(-> & _)|(_ & r & -> & _)]; [destruct Hev|].
  destruct Hev as [<-|[]]. exact Hff.
Qed.

(** X2.  The orientation preview is drawn exactly once in a run, from a
    deep copy of the mesh stored under the identifier of the selected disc
    (the identifier [DiscGolfDisc] is built from), at the answers of the
    nose and roll sliders; the other four sliders do not enter it. *)
Theorem preview_shows_the_selected_disc (h : handler) (c : call) :
  In c (calls (fst (run h main))) -> is_visualize c = true ->
  exists (p : ThrowParameters) (disc_selected : string)
         (disc_dict : Disc) (stored stl_mesh : Mesh),
    h (st_sidebar_selectbox "Disc Selection" (keys disc_names))
    = Ok disc_selected
    /\ getitem disc_names disc_selected = Ok (disc_name p)
    /\ h (DiscGolfDisc (disc_name p)) = Ok disc_dict
    /\ h (stl_meshes (disc_name p)) = Ok stored
    /\ h (deepcopy stored) = Ok stl_mesh
    /\ h (st_sidebar_slider nose_slider) = Ok (nose p)
    /\ h (st_sidebar_slider roll_slider) = Ok (roll p)
    /\ c = visualize_disc stl_mesh (nose p) (roll p)
    /\ filter is_visualize (calls (fst (run h main))) = [c].
Proof.
  intros Hin Hv.
  assert (is_widget c = false /\ is_faq c = false) as [Hw Hf]
    by (destruct c; cbn in *; try discriminate; auto;
        destruct m; cbn in *; try discriminate; auto).
  destruct (main_flight_call h c Hin Hw Hf) as (p & Hp & Hin' & _).
  destruct (simulate_preview h p c Hin' Hv)
    as (d & stored & mesh & Hd & Hs & Hm & -> & Hone).
  destruct (collect_returns h p Hp)
    as ((sel & Hsel & Hget) & Hn & Hr & _).
  exists p, sel, d, stored, mesh.
  repeat (split; [assumption || reflexivity|]).
  destruct (main_filter_flight h is_visualize _
              (fun c' H => ltac:(destruct c'; cbn in *; congruence))
              eq_refl Hin Hw Hf) as (p' & Hp' & ->).
  assert (p' = p) as -> by congruence. exact Hone.
Qed.

Lemma flight_kinds (c : call) :
  is_shoot c = true \/ is_post_process c = true \/ is_table c = true
  \/ is_get_plot c = true \/ is_chart c = true \/ is_subplots c = true
  \/ is_visualize c = true \/ is_preview_step c = true ->
  is_widget c = false /\ is_faq c = false.
Proof.
  destruct c; cbn; try (intuition discriminate).
  destruct m; cbn; intuition discriminate.
Qed.

Lemma simulate_sample_in_main (h : handler) (p : ThrowParameters)
      (shot : Shot) :
  (forall ev, In ev (fst (run h (simulate p))) -> In ev (fst (run h main))) ->
  In shot (samples (fst (run h (simulate p)))) ->
  In shot (samples (fst (run h main))).
Proof.
  intros Hsub Hin. apply in_samples in Hin. destruct Hin as (ev & Hev & Hs).
  apply in_samples. eauto.
Qed.

(** X3.  Whenever [shoot] is called, the orientation text and the chart of
    the figure [visualize_disc] returned, [st.plotly_chart(fig)] with no
    further argument, have been written before it. *)
Theorem preview_is_charted_before_the_flight (h : handler) (c : call) :
  In c (calls (fst (run h main))) -> is_shoot c = true ->
  exists (p : ThrowParameters) (stored stl_mesh : Mesh) (fig : Figure)
         (before after : list call),
    snd (run h collect) = Ok p
    /\ h (stl_meshes (disc_name p)) = Ok stored
    /\ h (deepcopy stored) = Ok stl_mesh
    /\ h (visualize_disc stl_mesh (nose p) (roll p)) = Ok fig
    /\ calls (fst (run h main)) = (before ++ c :: after)%list
    /\ In (st_markdown DiscOrientationText) before
    /\ In (st_plotly_chart fig None) before.
Proof.
  intros Hin Hs.
  destruct (flight_kinds c (or_introl Hs)) as [Hw Hf].
  destruct (main_parts h) as (pre & mid & post & Heq & Hpre & Hrest).
  destruct (main_flight_call h c Hin Hw Hf) as (p & Hp & Hin' & _).
  destruct (simulate_preview_first h p c Hin' Hs)
    as (stored & mesh & fig & before & after & Hm & Hcopy & Hv & Hcalls
        & Htext & Hchart).
  assert (mid = fst (run h (simulate p))) as Hmid.
  { destruct Hrest as [(-> & -> & _)|(p' & Hp' & -> & _)];
      [|congruence].
    exfalso. rewrite Heq, !app_nil_r in Hin.
    apply in_map_iff in Hin. destruct Hin as (ev & <- & Hev).
    rewrite (Hpre _ Hev) in Hw. discriminate. }
  exists p, stored, mesh, fig, (calls pre ++ before)%list,
    (after ++ calls post)%list.
  repeat (split; [assumption|]).
  split; [|split; apply in_or_app; right; assumption].
  rewrite Heq. unfold calls in *. rewrite !map_app, Hmid, Hcalls.
  rewrite <- !app_assoc. reflexivity.
Qed.

(** X4.  When building the disc, looking up its mesh, copying it or drawing
    the preview raises, that exception is the outcome of [main], nothing has
    been charted and [shoot] is not called. *)
Theorem preview_failure_stops_the_page (h : handler) (ev : event) (e : exn) :
  In ev (fst (run h main)) -> exception_of ev = Some e ->
  is_preview_step (ev_call ev) = true ->
  snd (run h main) = Raise e
  /\ forall c, In c (calls (fst (run h main))) ->
               is_chart c = false /\ is_shoot c = false.
Proof.
  intros Hin He Hk.
  destruct (run_raise_last h main ev e Hin He) as (Hout & _).
  split; [exact Hout|].
  destruct (flight_kinds _ (or_intror (or_intror (or_intror (or_intror
             (or_intror (or_intror (or_intror Hk)))))))) as [Hw Hf].
  destruct (main_flight_event h ev Hin Hw Hf) as (p & Hp & Hin' & _).
  pose proof (simulate_preview_fails h p (ev_call ev) e
                (in_map ev_call _ _ Hin') Hk (ev_answer h main ev e Hin He))
    as Hnone.
  assert (forall c, In c (calls (fst (run h main))) ->
                    is_chart c = true \/ is_shoot c = true -> False) as Hno.
  { intros c Hc Hkind.
    assert (is_widget c = false /\ is_faq c = false) as [Hw' Hf']
      by (apply flight_kinds; tauto).
    destruct (main_flight_call h c Hc Hw' Hf') as (p' & Hp' & Hc' & _).
    assert (p' = p) as -> by congruence.
    destruct (Hnone c Hc') as [H1 H2]. destruct Hkind; congruence. }
  intros c Hc. split.
  - destruct (is_chart c) eqn:E; [exfalso; eauto|reflexivity].
  - destruct (is_shoot c) eqn:E; [exfalso; eauto|reflexivity].
Qed.




Ltac step_betas h :=
  match goal with
  | |- context [match h ?c with Ok _ => _ | Raise _ => _ end] =>
      let E := fresh "E" in destruct (h c) eqn:E
  | |- context [lift ?r] => let E := fresh "E" in destruct r eqn:E
  | |- context [axis_remap ?q] => destruct q as [[? ?] ?] eqn:?
  | |- context [let '(_, _) := ?q in _] => is_var q; destruct q
  end;
  cbn [run bind perform lift fst snd calls map ev_call axis_remap with_betas].

(** X7.  The third series [post_process] returns (betas) is dropped:
    replacing it by anything changes neither the calls the page makes nor
    its outcome. *)
Theorem betas_never_reach_the_page (f : Series -> Series) (h : handler) :
  calls (fst (run (with_betas f h) main)) = calls (fst (run h main))
  /\ snd (run (with_betas f h) main) = snd (run h main).
Proof.
  unfold main, collect, simulate.
  cbn [run bind perform lift fst snd calls map ev_call with_betas].
  repeat (step_betas h).
  all: split; reflexivity.
Qed.

(** What a finished [simulate] has shown, each figure with the call that
    made it. *)
Lemma simulate_layout_figures (h : handler) (p : ThrowParameters) :
  snd (run h (simulate p)) = Ok tt ->
  exists disc_dict stored stl_mesh shot x_new y_new z
         arc alphas betas lifts drags moms rolls fig1 fig2 fig3 table,
    h (DiscGolfDisc (disc_name p)) = Ok disc_dict
    /\ h (stl_meshes (disc_name p)) = Ok stored
    /\ h (deepcopy stored) = Ok stl_mesh
    /\ h (visualize_disc stl_mesh (nose p) (roll p)) = Ok fig1
    /\ h (shoot disc_dict (U p) (omega p) (pitch p) (0, 0, z0 p)
                (nose p) (roll p)) = Ok shot
    /\ axis_remap (position shot) = (x_new, y_new, z)
    /\ h (get_plot x_new y_new z) = Ok fig2
    /\ flight_table (x_new, y_new, z) = Ok table
    /\ h (post_process disc_dict shot (omega p))
       = Ok (arc, alphas, betas, lifts, drags, moms, rolls)
    /\ h (get_subplots arc alphas lifts drags moms rolls (velocity shot))
       = Ok fig3
    /\ filter is_shown (calls (fst (run h (simulate p))))
       = [st_plotly_chart fig1 None; st_plotly_chart fig2 (Some true);
          st_markdown table; st_plotly_chart fig3 (Some true)]
    /\ is_table (st_markdown table) = true.
Proof.
  unfold simulate. sym_exec h.
  all: intros Hout; try discriminate.
  match goal with
  | E : flight_table _ = Ok ?t |- _ =>
      destruct (flight_table_cells _ _ E) as (? & ? & ? & ? & ->)
  end.
  do 18 eexists.
  repeat (split;
          [first [ eassumption | reflexivity
                 | match goal with
                   | P : position _ = _ |- _ => rewrite P; reflexivity
                   end ]|]).
  reflexivity.
Qed.

(** X8.  When [main] returns, the charts, the flight table and the FAQ it
    has written are exactly, in this order: [st.plotly_chart(fig)] of the
    figure [visualize_disc] returned, [st.plotly_chart(fig, True)] of the
    figure [get_plot] returned for the remapped sample, the table of that
    sample, [st.plotly_chart(fig, True)] of the figure [get_subplots]
    returned, and the FAQ. *)
Theorem a_finished_page_shows_three_charts_and_the_table (h : handler) :
  snd (run h main) = Ok tt ->
  exists (p : ThrowParameters) (disc_dict : Disc) (stored stl_mesh : Mesh)
         (shot : Shot) (x_new y_new z : list float)
         (arc alphas betas lifts drags moms rolls : Series)
         (fig1 fig2 fig3 : Figure) (table : markdown),
    snd (run h collect) = Ok p
    /\ h (DiscGolfDisc (disc_name p)) = Ok disc_dict
    /\ h (stl_meshes (disc_name p)) = Ok stored
    /\ h (deepcopy stored) = Ok stl_mesh
    /\ h (visualize_disc stl_mesh (nose p) (roll p)) = Ok fig1
    /\ h (shoot disc_dict (U p) (omega p) (pitch p) (0, 0, z0 p)
                (nose p) (roll p)) = Ok shot
    /\ axis_remap (position shot) = (x_new, y_new, z)
    /\ h (get_plot x_new y_new z) = Ok fig2
    /\ flight_table (x_new, y_new, z) = Ok table
    /\ h (post_process disc_dict shot (omega p))
       = Ok (arc, alphas, betas, lifts, drags, moms, rolls)
    /\ h (get_subplots arc alphas lifts drags moms rolls (velocity shot))
       = Ok fig3
    /\ filter is_shown (calls (fst (run h main)))
       = [st_plotly_chart fig1 None; st_plotly_chart fig2 (Some true);
          st_markdown table; st_plotly_chart fig3 (Some true);
          st_markdown faq]
    /\ is_table (st_markdown table) = true.
Proof.
  intros Hout.
  destruct (main_parts h) as (pre & mid & post & Heq & Hpre & Hrest).
  destruct Hrest as [(_ & _ & e & He)|(p & Hp & -> & Hpost)]; [congruence|].
  destruct Hpost as [(_ & e & _ & He)|(Hsim & r & -> & _ & _)];
    [congruence|].
  destruct (simulate_layout_figures h p Hsim)
    as (d & stored & mesh & shot & x_new & y_new & z & arc & alphas & betas
        & lifts & drags & moms & rolls & f1 & f2 & f3 & table
        & H1 & H2 & H3 & H4 & H5 & H6 & H7 & H8 & H9 & H10 & Hl & Ht).
  exists p, d, stored, mesh, shot, x_new, y_new, z, arc, alphas, betas,
    lifts, drags, moms, rolls, f1, f2, f3, table.
  repeat (split; [assumption|]). split; [|exact Ht].
  rewrite Heq. unfold calls in *. rewrite !map_app, !filter_app, Hl.
  rewrite (filter_none is_shown (map ev_call pre)).
  - reflexivity.
  - intros c Hc. apply in_map_iff in Hc. destruct Hc as (ev & <- & Hev).
    apply widget_not_shown. auto.
Qed.

(** X9.  The FAQ is written last and only after the simulator tab
    completed: whenever the FAQ is written, [collect] and [simulate] have
    returned. *)
Theorem faq_comes_after_a_finished_simulator (h : handler) (c : call) :
  In c (calls (fst (run h main))) -> is_faq c = true ->
  exists (p : ThrowParameters) (before : list call),
    snd (run h collect) = Ok p
    /\ snd (run h (simulate p)) = Ok tt
    /\ calls (fst (run h main)) = (before ++ [c])%list
    /\ forall c', In c' before -> is_faq c' = false.
Proof.
  intros Hin Hf.
  destruct (main_parts h) as (pre & mid & post & Heq & Hpre & Hrest).
  assert (forall c', In c' (calls pre) -> is_faq c' = false) as Hpre'.
  { intros c' Hc'. apply in_map_iff in Hc'. destruct Hc' as (ev & <- & Hev).
    specialize (Hpre ev Hev). destruct (ev_call ev); cbn in *; congruence. }
  rewrite Heq in Hin. unfold calls in Hin. rewrite !map_app in Hin.
  fold (calls pre) in Hin.
  apply in_app_or in Hin. destruct Hin as [Hin|Hin].
  { rewrite (Hpre' c Hin) in Hf. discriminate. }
  destruct Hrest as [(-> & -> & _)|(p & Hp & -> & Hpost)];
    [destruct Hin|].
  assert (forall c', In c' (calls (fst (run h (simulate p)))) ->
                     is_faq c' = false) as Hmid
    by (intros c' Hc'; apply (simulate_not_widget h p c' Hc')).
  apply in_app_or in Hin. destruct Hin as [Hin|Hin].
  { rewrite (Hmid c Hin) in Hf. discriminate. }
  destruct Hpost as [(-> & _)|(Hsim & r & -> & _ & _)]; [destruct Hin|].
  destruct Hin as [<-|[]].
  exists p, (calls pre ++ calls (fst (run h (simulate p))))%list.
  split; [exact Hp|]. split; [exact Hsim|]. split.
  - rewrite Heq. unfold calls. rewrite !map_app, <- app_assoc. reflexivity.
  - intros c' Hc'. apply in_app_or in Hc'. destruct Hc'; auto.
Qed.

(** X10.  When the trajectory plot raises, the sample has been computed
    but no table is presented and [post_process] is not called; the
    exception is the outcome of [main]. *)
Theorem plot_failure_hides_the_table (h : handler) (ev : event) (e : exn) :
  In ev (fst (run h main)) -> exception_of ev = Some e ->
  is_get_plot (ev_call ev) = true ->
  snd (run h main) = Raise e
  /\ (exists shot, In shot (samples (fst (run h main))))
  /\ forall c, In c (calls (fst (run h main))) ->
               is_table c = false /\ is_post_process c = false.
Proof.
  intros Hin He Hk.
  destruct (run_raise_last h main ev e Hin He) as (Hout & _).
  split; [exact Hout|].
  assert (is_widget (ev_call ev) = false /\ is_faq (ev_call ev) = false)
    as [Hw Hf] by (apply flight_kinds; tauto).
  destruct (main_flight_event h ev Hin Hw Hf) as (p & Hp & Hin' & Hsub).
  destruct (simulate_plot_fails h p (ev_call ev) e
              (in_map ev_call _ _ Hin') Hk (ev_answer h main ev e Hin He))
    as [(shot & Hshot) Hnone].
  split.
  { exists shot. apply (simulate_sample_in_main h p shot Hsub).
    rewrite Hshot. left. reflexivity. }
  assert (forall c, In c (calls (fst (run h main))) ->
                    is_table c = true \/ is_post_process c = true -> False)
    as Hno.
  { intros c Hc Hkind.
    assert (is_widget c = false /\ is_faq c = false) as [Hw' Hf']
      by (apply flight_kinds; tauto).
    destruct (main_flight_call h c Hc Hw' Hf') as (p' & Hp' & Hc' & _).
    assert (p' = p) as -> by congruence.
    destruct (Hnone c Hc') as [H1 H2]. destruct Hkind; congruence. }
  intros c Hc. split.
  - destruct (is_table c) eqn:E; [exfalso; eauto|reflexivity].
  - destruct (is_post_process c) eqn:E; [exfalso; eauto|reflexivity].
Qed.



(** The remap turns a starting y of 0.0 into -0.0, and [min] and [max] keep
    the first of equal items: the cells of a table computed from a flight
    that starts on the line y = 0. *)
Lemma negative_zero_cells
        (x ys z : list float) (a b c d : float) :
  flight_table (axis_remap (x, 0 :: ys, z)) = Ok (FlightTable a b c d) ->
  ((forall v, In v ys -> (0 <? v) = false) -> a = (-0)%float)
  /\ ((forall v, In v ys -> (v <? 0) = false) -> b = (-0)%float).
Proof.
  cbn [axis_remap flight_table map py_min py_max rbind].
  destruct (py_max z) as [c'|]; cbn [rbind]; [|discriminate].
  destruct (py_max x) as [d'|]; cbn [rbind]; [|discriminate].
  intros H. injection H as <- <- _ _.
  split; intros Hside; rewrite scan_keeps_first; try reflexivity.
  - intros v Hv. apply in_map_iff in Hv. destruct Hv as (w & <- & Hw).
    rewrite mul_minus_one.
    exact (eq_trans (ltb_opp w 0) (Hside w Hw)).
  - intros v Hv. apply in_map_iff in Hv. destruct Hv as (w & <- & Hw).
    rewrite mul_minus_one.
    exact (eq_trans (ltb_opp 0 w) (Hside w Hw)).
Qed.

(** ** Where an exception of the page comes from *)

Ltac last_event :=
  cbn [In];
  repeat match goal with
         | |- _ \/ False => left; reflexivity
         | |- _ \/ _ => right
         end.

Lemma getitem_raises (d : dict) (k : string) (e : exn) :
  getitem d k = Raise e -> e = KeyError k /\ ~ In k (keys d).
Proof.
  induction d as [|[k' v] d IH]; cbn.
  - intros [= <-]. auto.
  - destruct (String.eqb_spec k' k) as [->|Hne]; [discriminate|].
    intros Hg. destruct (IH Hg) as [-> Hk]. split; [reflexivity|].
    intros [Heq|Hin]; auto.
Qed.

Lemma flight_table_raises (r : rows) (e : exn) :
  flight_table r = Raise e ->
  e = ValueError "min() arg is an empty sequence"
  \/ e = ValueError "max() arg is an empty sequence".
Proof.
  destruct r as [[x y] z]. unfold flight_table.
  destruct x as [|? ?]; cbn; [intros [= <-]; auto|].
  destruct z as [|? ?]; cbn; [intros [= <-]; auto|].
  destruct y as [|? ?]; cbn; [intros [= <-]; auto|].
  discriminate.
Qed.

Lemma collect_raises (h : handler) (e : exn) :
  snd (run h collect) = Raise e ->
  (exists ev, In ev (fst (run h collect)) /\ exception_of ev = Some e)
  \/ (exists sel,
        h (st_sidebar_selectbox "Disc Selection" (keys disc_names)) = Ok sel
        /\ getitem disc_names sel = Raise e).
Proof.
  unfold collect. sym_exec h.
  all: intros He; try discriminate; injection He as <-.
  all: try (right; eexists; split; [reflexivity|eassumption]).
  all: left; eexists; split; [last_event|reflexivity].
Qed.

Lemma simulate_raises (h : handler) (p : ThrowParameters) (e : exn) :
  snd (run h (simulate p)) = Raise e ->
  (exists ev, In ev (fst (run h (simulate p))) /\ exception_of ev = Some e)
  \/ (exists shot,
        samples (fst (run h (simulate p))) = [shot]
        /\ flight_table (axis_remap (position shot)) = Raise e).
Proof.
  unfold simulate. sym_exec h.
  all: intros He; try discriminate; injection He as <-.
  all: try (right; eexists; split; [reflexivity|];
            same_position; eassumption).
  all: left; eexists; split; [last_event|reflexivity].
Qed.

Lemma samples_app (t1 t2 : list event) :
  samples (t1 ++ t2) = (samples t1 ++ samples t2)%list.
Proof.
  induction t1 as [|ev t1 IH]; cbn; [reflexivity|].
  destruct (sample_of ev); cbn; rewrite IH; reflexivity.
Qed.

Lemma samples_none (t : list event) :
  (forall ev, In ev t -> is_shoot (ev_call ev) = false) -> samples t = [].
Proof.
  induction t as [|ev t IH]; cbn; intros Hall; [reflexivity|].
  destruct (sample_of ev) eqn:E.
  - apply sample_is_shoot in E. rewrite (Hall ev) in E; auto. discriminate.
  - apply IH. auto.
Qed.

Lemma samples_widgets (t : list event) :
  (forall ev, In ev t -> is_widget (ev_call ev) = true) -> samples t = [].
Proof.
  intros Hall. apply samples_none. intros ev Hev. specialize (Hall ev Hev).
  destruct (ev_call ev); cbn in *; congruence.
Qed.





(** X14.  With answers of the shapes [main] unpacks and reads (the typed
    answers of [answer]: two tabs, a shot with three position series and a
    velocity, seven series of [post_process]), the page raises nothing of
    its own beyond the two lookups it does unguarded: when [main] ends in an
    exception, either a call it made raised that exception, or the select
    box answered a name outside [disc_names] and it is the [KeyError] of
    that name, or the flight table could not be reduced and it is the
    [ValueError] of [min] or [max] on an empty series. *)
Theorem the_page_raises_nothing_of_its_own (h : handler) (e : exn) :
  snd (run h main) = Raise e ->
  (exists ev, In ev (fst (run h main)) /\ exception_of ev = Some e)
  \/ (exists sel,
        h (st_sidebar_selectbox "Disc Selection" (keys disc_names)) = Ok sel
        /\ ~ In sel (keys disc_names) /\ e = KeyError sel)
  \/ (exists shot,
        samples (fst (run h main)) = [shot]
        /\ flight_table (axis_remap (position shot)) = Raise e
        /\ (e = ValueError "min() arg is an empty sequence"
            \/ e = ValueError "max() arg is an empty sequence")).
Proof.
  unfold main. cbn [bind perform run].
  destruct (h (st_tabs ["Simulator"; "FAQ"])) as [u1|e1].
  2:{ cbn [fst snd]. intros [= <-]. left. eexists.
      split; [left|]; reflexivity. }
  destruct (h (st_sidebar_markdown VisitorBadge)) as [u2|e2].
  2:{ cbn [fst snd]. intros [= <-]. left. eexists.
      split; [right; left|]; reflexivity. }
  rewrite run_bind.
  pose proof (collect_raises h) as Hc.
  assert (forall ev, In ev (fst (run h collect)) ->
                     is_widget (ev_call ev) = true) as Hw.
  { intros ev Hin. apply (in_map ev_call) in Hin.
    exact (collect_widgets h _ Hin). }
  destruct (run h collect) as [tc [p|e0]]; cbn [fst snd] in *.
  2:{ intros [= <-].
      destruct (Hc e0 eq_refl) as [(ev & Hin & He)|(sel & Hs & Hg)].
      - left. exists ev. try rewrite app_nil_r. cbn [In]. auto.
      - right. left. exists sel. apply getitem_raises in Hg. tauto. }
  clear Hc. rewrite run_bind.
  pose proof (simulate_raises h p) as Hs.
  destruct (run h (simulate p)) as [ts [[]|e0]]; cbn [fst snd run] in *.
  2:{ intros [= <-].
      destruct (Hs e0 eq_refl) as [(ev & Hin & He)|(shot & Hsam & Ht)].
      - left. exists ev. try rewrite app_nil_r. cbn [In].
        split; [|exact He]. right. right. apply in_or_app. auto.
      - right. right. exists shot. try rewrite app_nil_r.
        split; [|split; [exact Ht|exact (flight_table_raises _ _ Ht)]].
        change (samples (([Ev (st_tabs ["Simulator"; "FAQ"]) (Ok u1);
                          Ev (st_sidebar_markdown VisitorBadge) (Ok u2)]
                           ++ tc) ++ ts) = [shot]).
        rewrite samples_app, Hsam, samples_widgets; [reflexivity|].
        intros ev Hin. apply in_app_or in Hin.
        destruct Hin as [[<-|[<-|[]]]|Hin]; auto. }
  destruct (h (st_markdown faq)) as [u3|e3]; cbn [fst snd]; [discriminate|].
  intros [= <-]. left. exists (Ev (st_markdown faq) (Raise e3)).
  split; [|reflexivity].
  right. right. apply in_or_app. right. apply in_or_app. right. left.
  reflexivity.
Qed.

(** X12.  A flight that starts on the line y = 0 and never has a positive y
    gets a table whose Drift Left cell is negative zero (the remap turned the
    0.0 into -0.0 and [min] kept it); one that never has a negative y gets a
    table whose Drift Right cell is negative zero. *)
Theorem one_sided_flight_shows_negative_zero (x ys z : list float) :
  x <> [] -> z <> [] ->
  ((forall v, In v ys -> (0 <? v) = false) ->
   exists b c d,
     flight_table (axis_remap (x, 0 :: ys, z))
     = Ok (FlightTable (-0) b c d))
  /\ ((forall v, In v ys -> (v <? 0) = false) ->
      exists a c d,
        flight_table (axis_remap (x, 0 :: ys, z))
        = Ok (FlightTable a (-0) c d)).
Proof.
  intros Hx Hz.
  assert (exists a b c d, flight_table (axis_remap (x, 0 :: ys, z))
                          = Ok (FlightTable a b c d))
    as (a & b & c & d & Ht).
  { destruct x as [|x0 x]; [contradiction|].
    destruct z as [|z0 z]; [contradiction|].
    do 4 eexists. reflexivity. }
  destruct (negative_zero_cells x ys z a b c d Ht) as [Hleft Hright].
  split; intros Hside.
  - rewrite <- (Hleft Hside). eauto.
  - rewrite <- (Hright Hside). eauto.
Qed.

End PageFacts.

(** ** The laboratory honours the contracts *)

Lemma lab_serves_catalog (selected : option string)
      (shots : string -> result (@Shot lab)) (v : @PostProcessed lab) :
  (forall d, exists s, shots d = Ok s /\ TrajectorySample (position s)
                       /\ non_empty (position s)) ->
  serves_catalog (lab_handler selected shots (Ok v)).
Proof.
  intros Hshots. split.
  - intros c _. destruct c; cbn; eauto.
    + destruct selected; eauto.
    + destruct (Hshots disc_dict) as (s & -> & _). eauto.
  - intros c shot. destruct c; cbn; try discriminate.
    destruct (Hshots disc_dict) as (s & -> & HT & Hne).
    intros H. injection H as <-. auto.
Qed.

Lemma lab_shot_sample :
  TrajectorySample (position lab_shot) /\ non_empty (position lab_shot).
Proof.
  split; [vm_compute; repeat split; reflexivity|vm_compute; discriminate].
Qed.

Lemma flat_shot_sample :
  TrajectorySample (position flat_shot) /\ non_empty (position flat_shot).
Proof.
  split; [vm_compute; repeat split; reflexivity|vm_compute; discriminate].
Qed.

Lemma lab_ok_serves_catalog : serves_catalog lab_ok.
Proof.
  apply lab_serves_catalog. intros d. exists lab_shot.
  split; [reflexivity|exact lab_shot_sample].
Qed.

Lemma lab_selecting_serves_catalog (display : string) :
  serves_catalog (lab_selecting display).
Proof.
  apply lab_serves_catalog. intros d. unfold two_flights.
  destruct (String.eqb d "cd1").
  - exists flat_shot. split; [reflexivity|exact flat_shot_sample].
  - exists lab_shot. split; [reflexivity|exact lab_shot_sample].
Qed.

Lemma lab_sliders_in_range (selected : option string)
      (shots : string -> result (@Shot lab))
      (processed : result (@PostProcessed lab)) :
  sliders_in_range (lab_handler selected shots processed).
Proof.
  intros s v Hin Hv. cbn in Hv. injection Hv as <-.
  unfold declared_sliders in Hin. cbn [map In] in Hin.
  repeat (destruct Hin as [Hin|Hin]; [injection Hin as <-; reflexivity|]).
  destruct Hin.
Qed.

(** C8.  The select box offers the four display names of a fixed table, and
    each of them looks up an identifier of the catalog dd2, cd1, cd5, fd2
    without a [KeyError].  With collaborators that honour their contract for
    the catalog, [simulate] returns for every identifier of the catalog, and
    so does [main] for every display name; and two runs that differ only in
    the selected disc may present different tables. *)
Theorem C8_the_catalog_is_fixed_and_served :
  keys disc_names
  = ["Innova Wraith"; "Innova Firebird"; "Innova Roadrunner";
     "Innova Fairway Driver"]
  /\ map (getitem disc_names) (keys disc_names)
     = [Ok "dd2"; Ok "cd1"; Ok "cd5"; Ok "fd2"]
  /\ catalog = ["dd2"; "cd1"; "cd5"; "fd2"]
  /\ (forall (C : Collaborators) (h : @handler C) (p : ThrowParameters),
        In (disc_name p) catalog -> serves_catalog h ->
        snd (run h (simulate p)) = Ok tt)
  /\ (forall (C : Collaborators) (h : @handler C),
        serves_catalog h ->
        (forall sel,
            h (st_sidebar_selectbox "Disc Selection" (keys disc_names))
            = Ok sel -> In sel (keys disc_names)) ->
        snd (run h main) = Ok tt)
  /\ (exists (p1 p2 : ThrowParameters) (a1 b1 c1 d1 a2 b2 c2 d2 : float),
        serves_catalog (lab_selecting "Innova Wraith")
        /\ serves_catalog (lab_selecting "Innova Firebird")
        /\ snd (run (lab_selecting "Innova Wraith") collect) = Ok p1
        /\ snd (run (lab_selecting "Innova Firebird") collect) = Ok p2
        /\ (disc_name p1, disc_name p2) = ("dd2", "cd1")
        /\ [U p1; omega p1; z0 p1; pitch p1; nose p1; roll p1]
           = [U p2; omega p2; z0 p2; pitch p2; nose p2; roll p2]
        /\ filter is_table
                  (calls (fst (run (lab_selecting "Innova Wraith") main)))
           = [st_markdown (FlightTable a1 b1 c1 d1)]
        /\ filter is_table
                  (calls (fst (run (lab_selecting "Innova Firebird") main)))
           = [st_markdown (FlightTable a2 b2 c2 d2)]
        /\ (d1 =? d2) = false).
Proof.
  split; [reflexivity|]. split; [reflexivity|]. split; [reflexivity|].
  split; [intros C h p; apply simulate_returns|].
  split; [intros C h; apply main_returns|].
  exists lab_params,
    {| U := 24.2; omega := 116.8; z0 := 1.3; pitch := 15.5; nose := 0.0;
       roll := 14.7; disc_name := "cd1" |},
    (-0.5), 1.23, 2.5, 20, (-0), (-0), 1, 5.
  split; [apply lab_selecting_serves_catalog|].
  split; [apply lab_selecting_serves_catalog|].
  repeat split; reflexivity.
Qed.

(** ** Concrete runs *)

Lemma C1_witness :
  In lab_shot (samples (fst (run lab_ok main)))
  /\ TrajectorySample (position lab_shot)
  /\ non_empty (position lab_shot)
  /\ exists s, flight_summary (axis_remap (position lab_shot)) = Ok s
               /\ In (st_markdown (table_of s))
                     (calls (fst (run lab_ok main))).
Proof.
  assert (In lab_shot (samples (fst (run lab_ok main)))) as H1
    by (vm_compute; left; reflexivity).
  assert (TrajectorySample (position lab_shot)) as H2
    by (vm_compute; repeat split; reflexivity).
  assert (non_empty (position lab_shot)) as H3
    by (vm_compute; discriminate).
  repeat (split; [assumption|]).
  destruct (C1_table_shows_rounded_reductions
              lab_ok lab_shot _ _ _ H1 eq_refl H2 H3)
    as (s & _ & Hs & _ & _ & _ & _ & _ & Hshown).
  exists s. split; [exact Hs|]. apply (Hshown 1%nat); reflexivity.
Defined.

(** At this run the table shows 1.23 for Drift Right while the maximum of
    new_x is 1.234. *)
Lemma C1_counterexample :
  samples (fst (run lab_ok main)) = [lab_shot]
  /\ TrajectorySample (position lab_shot)
  /\ non_empty (position lab_shot)
  /\ filter is_table (calls (fst (run lab_ok main)))
     = [st_markdown (FlightTable (-0.5) 1.23 2.5 20)]
  /\ maximum_of 1.234 (fst (fst (axis_remap (position lab_shot))))
  /\ (1.23 =? 1.234) = false.
Proof.
  split; [reflexivity|].
  split; [vm_compute; repeat split; reflexivity|].
  split; [vm_compute; discriminate|].
  split; [reflexivity|].
  split; [|reflexivity].
  split; [vm_compute; auto|].
  intros v Hv. vm_compute in Hv.
  destruct Hv as [<-|[<-|[<-|[]]]]; reflexivity.
Qed.

Lemma C3_witness :
  TrajectorySample (position lab_shot)
  /\ non_empty (position lab_shot)
  /\ exists s, flight_summary (axis_remap (position lab_shot)) = Ok s
               /\ (drift_left s <=? drift_right s) = true.
Proof.
  assert (TrajectorySample (position lab_shot)) as H2
    by (vm_compute; repeat split; reflexivity).
  assert (non_empty (position lab_shot)) as H3
    by (vm_compute; discriminate).
  repeat (split; [assumption|]).
  destruct (C3_drift_left_le_drift_right _ _ _ H2 H3)
    as (s & Hs & _ & _ & _ & Hle & _).
  exists s. split; assumption.
Defined.

Lemma C4_witness :
  physics_deterministic (either lab_ok lab_plot_fails)
  /\ exec (either lab_ok lab_plot_fails) (simulate lab_params)
          (fst (run lab_ok (simulate lab_params)))
          (snd (run lab_ok (simulate lab_params)))
  /\ exec (either lab_ok lab_plot_fails) (simulate lab_params)
          (fst (run lab_plot_fails (simulate lab_params)))
          (snd (run lab_plot_fails (simulate lab_params)))
  /\ snd (run lab_ok (simulate lab_params)) = Ok tt
  /\ snd (run lab_plot_fails (simulate lab_params)) = Raise unstable
  /\ In lab_shot (samples (fst (run lab_ok (simulate lab_params))))
  /\ In lab_shot (samples (fst (run lab_plot_fails (simulate lab_params))))
  /\ forall s1 s2,
       In s1 (samples (fst (run lab_ok (simulate lab_params)))) ->
       In s2 (samples (fst (run lab_plot_fails (simulate lab_params)))) ->
       s1 = s2.
Proof.
  assert (physics_deterministic (either lab_ok lab_plot_fails)) as H1.
  { intros c r1 r2 Hc [<-|<-] [<-|<-]; destruct c; try discriminate Hc;
      reflexivity. }
  assert (exec (either lab_ok lab_plot_fails) (simulate lab_params)
               (fst (run lab_ok (simulate lab_params)))
               (snd (run lab_ok (simulate lab_params)))) as H2.
  { apply (exec_mono (graph lab_ok)); [intros c r H; left; exact H|].
    apply exec_run. }
  assert (exec (either lab_ok lab_plot_fails) (simulate lab_params)
               (fst (run lab_plot_fails (simulate lab_params)))
               (snd (run lab_plot_fails (simulate lab_params)))) as H3.
  { apply (exec_mono (graph lab_plot_fails)); [intros c r H; right; exact H|].
    apply exec_run. }
  repeat (split; [assumption|]).
  split; [reflexivity|]. split; [reflexivity|].
  split; [vm_compute; auto|]. split; [vm_compute; auto|].
  destruct (C4_simulate_is_deterministic _ lab_params lab_params _ _ _ _
              H1 eq_refl H2 H3) as (Hsame & _).
  exact Hsame.
Defined.

Lemma C5_witness :
  untouched lab_ok
  /\ snd (run lab_ok collect) = Ok lab_params
  /\ In lab_shoot_call (calls (fst (run lab_ok main)))
  /\ [U lab_params; omega lab_params; z0 lab_params; pitch lab_params;
      nose lab_params; roll lab_params]
     = [24.2; 116.8; 1.3; 15.5; 0.0; 14.7]
  /\ filter is_slider (calls (fst (run lab_ok main)))
     = map st_sidebar_slider
           [nose_slider; roll_slider; U_slider; omega_slider; z0_slider;
            pitch_slider]
  /\ exists disc_dict : @Disc lab,
       lab_shoot_call = shoot disc_dict 24.2 116.8 15.5 (0, 0, 1.3) 0.0 14.7.
Proof.
  assert (untouched lab_ok) as H1 by (intros s; reflexivity).
  assert (snd (run lab_ok collect) = Ok lab_params) as H2 by reflexivity.
  assert (In lab_shoot_call (calls (fst (run lab_ok main)))) as H3
    by (vm_compute; auto 40).
  repeat (split; [assumption|]).
  destruct (@C5_defaults_are_the_initial_slider_values lab)
    as (_ & _ & _ & Hsix & Hfirst & Hshoot).
  split; [exact (Hfirst lab_ok lab_params H1 H2)|].
  split; [exact (proj1 (Hsix lab_ok lab_shoot_call H3 eq_refl))|].
  exact (Hshoot lab_ok lab_shoot_call H1 H3 eq_refl).
Defined.

Lemma C6_witness :
  sliders_in_range lab_ok
  /\ In lab_shoot_call (calls (fst (run lab_ok main)))
  /\ between 0 40 24.2 = true /\ between 0 200 116.8 = true
  /\ between 0 2 1.3 = true /\ between 0 90 15.5 = true
  /\ between (-45) 90 0.0 = true /\ between (-90) 90 14.7 = true.
Proof.
  assert (sliders_in_range lab_ok) as H1 by apply lab_sliders_in_range.
  assert (In lab_shoot_call (calls (fst (run lab_ok main)))) as H2
    by (vm_compute; auto 40).
  repeat (split; [assumption|]).
  destruct (C6_parameters_stay_in_their_ranges lab_ok H1) as (_ & _ & H).
  exact (H _ _ _ _ _ _ _ _ _ H2).
Defined.


Lemma C8_witness :
  In (disc_name lab_params) catalog
  /\ serves_catalog lab_ok
  /\ snd (run lab_ok (simulate lab_params)) = Ok tt
  /\ snd (run lab_ok main) = Ok tt.
Proof.
  assert (In (disc_name lab_params) catalog) as H1 by (cbn; auto).
  pose proof lab_ok_serves_catalog as H2.
  repeat (split; [assumption|]).
  destruct C8_the_catalog_is_fixed_and_served
    as (_ & _ & _ & Hsim & Hmain & _).
  split; [exact (Hsim lab lab_ok lab_params H1 H2)|].
  apply (Hmain lab lab_ok H2).
  intros sel Hsel. cbn in Hsel. injection Hsel as <-. cbn. auto.
Defined.

Lemma C9_witness :
  In (Ev lab_shoot_call (Raise unstable)) (fst (run lab_shoot_fails main))
  /\ exception_of (Ev lab_shoot_call (Raise unstable)) = Some unstable
  /\ snd (run lab_shoot_fails main) = Raise unstable
  /\ forall c, In c (calls (fst (run lab_shoot_fails main))) ->
               is_table c = false /\ is_get_plot c = false.
Proof.
  assert (In (Ev lab_shoot_call (Raise unstable))
             (fst (run lab_shoot_fails main))) as H1
    by (vm_compute; auto 40).
  assert (exception_of (Ev lab_shoot_call (Raise unstable)) = Some unstable)
    as H2 by reflexivity.
  repeat (split; [assumption|]).
  destruct (C9_physics_failure_propagates lab_shoot_fails _ _ H1 H2 eq_refl)
    as (Hout & _ & _ & _ & Hnone).
  split; [exact Hout|]. exact (Hnone eq_refl).
Defined.

Lemma C10_witness :
  In empty_shot (samples (fst (run lab_empty main)))
  /\ position empty_shot = ([], [], [])
  /\ snd (run lab_empty main)
     = Raise (ValueError "min() arg is an empty sequence").
Proof.
  assert (In empty_shot (samples (fst (run lab_empty main)))) as H1
    by (vm_compute; left; reflexivity).
  assert (position empty_shot = ([], [], [])) as H2 by reflexivity.
  repeat (split; [assumption|]).
  destruct (C10_summary_needs_a_non_empty_sample lab_empty empty_shot H1)
    as [Hempty _].
  destruct (Hempty H2) as (_ & _ & _ & Hmin).
  apply (Hmin 1%nat); reflexivity.
Defined.

(** Why a trajectory sample is asked to hold numbers: NaN compares false
    with everything, so a scan that starts on NaN keeps it, and the result
    is neither a minimum nor a maximum. *)
Example scans_keep_a_leading_nan :
  py_min [nan; 1] = Ok nan /\ py_max [nan; 1] = Ok nan
  /\ (nan <=? 1) = false /\ (nan <=? nan) = false.
Proof.
  repeat split; reflexivity.
Qed.

(** Rounding to two decimals can hide a drift: here new_x is not constant
    and min(new_x) < max(new_x), yet both cells of the table read 0. *)
Example rounded_drifts_can_tie :
  TrajectorySample ([0; 1], [-0.001; -0.002], [1; 0])
  /\ flight_summary (axis_remap ([0; 1], [-0.001; -0.002], [1; 0]))
     = Ok {| drift_left := 0.001; drift_right := 0.002; max_height := 1;
             distance := 1 |}
  /\ flight_table (axis_remap ([0; 1], [-0.001; -0.002], [1; 0]))
     = Ok (FlightTable 0 0 1 1)
  /\ (0.001 <? 0.002) = true.
Proof.
  split; [vm_compute; repeat split; reflexivity|].
  repeat split; reflexivity.
Qed.

(** The determinism of [simulate] rests on that of the physics model: when
    [shoot] may either return or fail, the same parameters have two
    executions with different outcomes. *)
Example simulate_follows_its_collaborators :
  exists t1 t2,
    exec (either lab_ok lab_shoot_fails) (simulate lab_params) t1 (Ok tt)
    /\ exec (either lab_ok lab_shoot_fails) (simulate lab_params) t2
            (Raise unstable)
    /\ samples t1 = [lab_shot] /\ samples t2 = [].
Proof.
  exists (fst (run lab_ok (simulate lab_params))),
    (fst (run lab_shoot_fails (simulate lab_params))).
  split.
  - apply (exec_mono (graph lab_ok)); [intros c r H; left; exact H|].
    exact (exec_run lab_ok (simulate lab_params)).
  - split; [|split; reflexivity].
    apply (exec_mono (graph lab_shoot_fails));
      [intros c r H; right; exact H|].
    exact (exec_run lab_shoot_fails (simulate lab_params)).
Qed.

(** With a deterministic physics model the sample is the same wherever
    there is one, but an execution need not have one: when the preview may
    fail, the same parameters have an execution that never reaches
    [shoot]. *)
Example a_failed_preview_leaves_no_sample :
  physics_deterministic (either lab_ok lab_no_preview)
  /\ exists t1 t2,
       exec (either lab_ok lab_no_preview) (simulate lab_params) t1 (Ok tt)
       /\ exec (either lab_ok lab_no_preview) (simulate lab_params) t2
               (Raise unstable)
       /\ samples t1 = [lab_shot] /\ samples t2 = [].
Proof.
  split.
  { intros c r1 r2 Hc [<-|<-] [<-|<-]; destruct c; try discriminate Hc;
      reflexivity. }
  exists (fst (run lab_ok (simulate lab_params))),
    (fst (run lab_no_preview (simulate lab_params))).
  split.
  - apply (exec_mono (graph lab_ok)); [intros c r H; left; exact H|].
    exact (exec_run lab_ok (simulate lab_params)).
  - split; [|split; reflexivity].
    apply (exec_mono (graph lab_no_preview));
      [intros c r H; right; exact H|].
    exact (exec_run lab_no_preview (simulate lab_params)).
Qed.

(** A failure of [post_process] comes after the table: the table stays
    presented, the exception is the outcome and the charts are not drawn. *)
Example post_process_failure_run :
  snd (run lab_post_process_fails main) = Raise unstable
  /\ filter is_table (calls (fst (run lab_post_process_fails main)))
     = [st_markdown (FlightTable (-0.5) 1.23 2.5 20)]
  /\ last (calls (fst (run lab_post_process_fails main))) st_container
     = @post_process lab "dd2" lab_shot 116.8.
Proof.
  repeat split; reflexivity.
Qed.

(** ** The rest of the page, run in the laboratory *)

Lemma unknown_disc_raises_KeyError_witness :
  lab_unknown_disc (st_sidebar_selectbox "Disc Selection" (keys disc_names))
  = Ok "Innova Destroyer"
  /\ ~ In "Innova Destroyer" (keys disc_names)
  /\ snd (run lab_unknown_disc main) = Raise (KeyError "Innova Destroyer")
  /\ List.length (fst (run lab_unknown_disc main)) = 3%nat.
Proof.
  assert (In (st_sidebar_selectbox "Disc Selection" (keys disc_names))
             (calls (fst (run lab_unknown_disc main)))) as H1
    by (vm_compute; auto 40).
  assert (lab_unknown_disc
            (st_sidebar_selectbox "Disc Selection" (keys disc_names))
          = Ok "Innova Destroyer") as H2 by reflexivity.
  assert (~ In "Innova Destroyer" (keys disc_names)) as H3
    by (cbn; intuition discriminate).
  repeat (split; [assumption|]).
  destruct (@unknown_disc_raises_KeyError lab lab_unknown_disc
              "Innova Destroyer" H1 H2 H3) as (Hout & u1 & u2 & Htrace).
  split; [exact Hout|]. rewrite Htrace. reflexivity.
Defined.

Lemma preview_shows_the_selected_disc_witness :
  In (@visualize_disc lab "dd2" 0.0 14.7) (calls (fst (run lab_ok main)))
  /\ is_visualize (@visualize_disc lab "dd2" 0.0 14.7) = true
  /\ filter is_visualize (calls (fst (run lab_ok main)))
     = [@visualize_disc lab "dd2" 0.0 14.7].
Proof.
  assert (In (@visualize_disc lab "dd2" 0.0 14.7)
             (calls (fst (run lab_ok main)))) as H1
    by (vm_compute; auto 40).
  assert (is_visualize (@visualize_disc lab "dd2" 0.0 14.7) = true) as H2
    by reflexivity.
  repeat (split; [assumption|]).
  destruct (@preview_shows_the_selected_disc lab lab_ok _ H1 H2)
    as (p & sel & d & stored & mesh & _ & _ & _ & _ & _ & _ & _ & _ & Hone).
  exact Hone.
Defined.

Lemma preview_is_charted_before_the_flight_witness :
  In lab_shoot_call (calls (fst (run lab_ok main)))
  /\ is_shoot lab_shoot_call = true
  /\ exists (fig : @Figure lab) before after,
       calls (fst (run lab_ok main)) = (before ++ lab_shoot_call :: after)%list
       /\ In (st_markdown DiscOrientationText) before
       /\ In (st_plotly_chart fig None) before.
Proof.
  assert (In lab_shoot_call (calls (fst (run lab_ok main)))) as H1
    by (vm_compute; auto 40).
  assert (is_shoot lab_shoot_call = true) as H2 by reflexivity.
  repeat (split; [assumption|]).
  destruct (@preview_is_charted_before_the_flight lab lab_ok _ H1 H2)
    as (p & stored & mesh & fig & before & after & _ & _ & _ & _ & Heq & Ht
        & Hc).
  exists fig, before, after. auto.
Defined.

Lemma preview_failure_stops_the_page_witness :
  In (Ev (@DiscGolfDisc lab "dd2") (Raise unstable))
     (fst (run lab_no_disc main))
  /\ exception_of (Ev (@DiscGolfDisc lab "dd2") (Raise unstable))
     = Some unstable
  /\ is_preview_step (@DiscGolfDisc lab "dd2") = true
  /\ snd (run lab_no_disc main) = Raise unstable
  /\ forall c, In c (calls (fst (run lab_no_disc main))) ->
               is_chart c = false /\ is_shoot c = false.
Proof.
  assert (In (Ev (@DiscGolfDisc lab "dd2") (Raise unstable))
             (fst (run lab_no_disc main))) as H1
    by (vm_compute; auto 40).
  assert (exception_of (Ev (@DiscGolfDisc lab "dd2") (Raise unstable))
          = Some unstable) as H2 by reflexivity.
  assert (is_preview_step (@DiscGolfDisc lab "dd2") = true) as H3
    by reflexivity.
  repeat (split; [assumption|]).
  exact (@preview_failure_stops_the_page lab lab_no_disc _ _ H1 H2 H3).
Defined.



Lemma a_finished_page_shows_three_charts_and_the_table_witness :
  snd (run lab_ok main) = Ok tt
  /\ exists (fig1 fig2 fig3 : @Figure lab) table,
       filter is_shown (calls (fst (run lab_ok main)))
       = [@st_plotly_chart lab fig1 None; st_plotly_chart fig2 (Some true);
          st_markdown table; st_plotly_chart fig3 (Some true);
          st_markdown faq]
       /\ is_table (@st_markdown lab table) = true.
Proof.
  assert (snd (run lab_ok main) = Ok tt) as H1 by reflexivity.
  split; [exact H1|].
  destruct (@a_finished_page_shows_three_charts_and_the_table lab lab_ok H1)
    as (p & d & stored & mesh & shot & x_new & y_new & z & arc & alphas
        & betas & lifts & drags & moms & rolls & f1 & f2 & f3 & table
        & _ & _ & _ & _ & _ & _ & _ & _ & _ & _ & _ & Hl & Ht).
  exists f1, f2, f3, table. split; assumption.
Defined.

Lemma faq_comes_after_a_finished_simulator_witness :
  In (@st_markdown lab faq) (calls (fst (run lab_ok main)))
  /\ is_faq (@st_markdown lab faq) = true
  /\ exists p before,
       snd (run lab_ok collect) = Ok p
       /\ snd (run lab_ok (simulate p)) = Ok tt
       /\ calls (fst (run lab_ok main)) = (before ++ [st_markdown faq])%list.
Proof.
  assert (In (@st_markdown lab faq) (calls (fst (run lab_ok main)))) as H1
    by (vm_compute; auto 40).
  assert (is_faq (@st_markdown lab faq) = true) as H2 by reflexivity.
  repeat (split; [assumption|]).
  destruct (@faq_comes_after_a_finished_simulator lab lab_ok _ H1 H2)
    as (p & before & Hp & Hs & Heq & _).
  exists p, before. auto.
Defined.

Lemma plot_failure_hides_the_table_witness :
  In (Ev (@get_plot lab [-0; -0.5; 1.234] [0; 10; 20] [1.3; 2.5; 0])
         (Raise unstable)) (fst (run lab_plot_fails main))
  /\ exception_of
       (Ev (@get_plot lab [-0; -0.5; 1.234] [0; 10; 20] [1.3; 2.5; 0])
           (Raise unstable)) = Some unstable
  /\ snd (run lab_plot_fails main) = Raise unstable
  /\ (exists shot : @Shot lab,
         In shot (samples (fst (run lab_plot_fails main))))
  /\ forall c, In c (calls (fst (run lab_plot_fails main))) ->
               is_table c = false /\ is_post_process c = false.
Proof.
  assert (In (Ev (@get_plot lab [-0; -0.5; 1.234] [0; 10; 20] [1.3; 2.5; 0])
                 (Raise unstable)) (fst (run lab_plot_fails main))) as H1
    by (vm_compute; auto 40).
  assert (exception_of
            (Ev (@get_plot lab [-0; -0.5; 1.234] [0; 10; 20] [1.3; 2.5; 0])
                (Raise unstable)) = Some unstable) as H2 by reflexivity.
  repeat (split; [assumption|]).
  exact (@plot_failure_hides_the_table lab lab_plot_fails _ _ H1 H2 eq_refl).
Defined.


Lemma one_sided_flight_shows_negative_zero_witness :
  position one_sided_shot = ([0; 10; 20], 0 :: [-0.5; -1.25], [1.3; 2.5; 0])
  /\ Forall (fun v => (0 <? v) = false) [-0.5; -1.25]
  /\ exists b c d,
       flight_table (axis_remap (position one_sided_shot))
       = Ok (FlightTable (-0) b c d).
Proof.
  split; [reflexivity|].
  assert (Forall (fun v => (0 <? v) = false) [-0.5; -1.25]) as H1
    by (repeat constructor).
  split; [exact H1|].
  assert ([0; 10; 20] <> @nil float) as Hx by discriminate.
  assert ([1.3; 2.5; 0] <> @nil float) as Hz by discriminate.
  destruct (one_sided_flight_shows_negative_zero
              [0; 10; 20] [-0.5; -1.25] [1.3; 2.5; 0] Hx Hz) as [Hleft _].
  apply Hleft. apply Forall_forall. exact H1.
Defined.


Lemma the_page_raises_nothing_of_its_own_witness :
  snd (run lab_empty main)
  = Raise (ValueError "min() arg is an empty sequence")
  /\ samples (fst (run lab_empty main)) = [empty_shot]
  /\ flight_table (axis_remap (position empty_shot))
     = Raise (ValueError "min() arg is an empty sequence").
Proof.
  assert (snd (run lab_empty main)
          = Raise (ValueError "min() arg is an empty sequence")) as H1
    by reflexivity.
  split; [exact H1|].
  destruct (@the_page_raises_nothing_of_its_own lab lab_empty _ H1)
    as [(ev & Hin & He)|[(sel & Hs & Hk & He)|(shot & Hsam & Ht & _)]].
  - exfalso. vm_compute in Hin.
    repeat (destruct Hin as [<-|Hin]; [discriminate He|]). exact Hin.
  - discriminate He.
  - split; reflexivity.
Defined.
